(** * A verified model of the dingz client ([dingz/dingz.py])

    The client builds request URLs against a configured host, issues HTTP
    calls through [make_call], and caches the values it last saw behind
    accessors.  The development embeds the class [Dingz] method by method
    in a state-and-exception monad over a world that holds the client
    object, the store of HTTP sessions, the requests put on the wire and
    what was printed. *)

From Stdlib Require Import ZArith Ascii String PrimFloat SpecFloat FloatOps.
From stdpp Require Import gmap strings list.

Set Warnings "-inexact-float,-register-all,-clear-no-such-hyp".
Open Scope string_scope.
Open Scope list_scope.
Open Scope nat_scope.

(** ** Python values

    A parsed JSON body is a Python object: [None], [bool], [int], [float],
    [str], [list] or [dict] with string keys. *)

Inductive pyval : Type :=
| PNone
| PBool (b : bool)
| PInt (z : Z)
| PFloat (f : float)
| PStr (s : string)
| PList (l : list pyval)
| PDict (d : gmap string pyval).

(** The exceptions that can travel through the client. [DingzError] is the
    single error kind of [make_call]; [KeyError] and [TypeError] come from
    subscripting and from [round]. *)
Inductive exn : Type :=
| DingzError
| KeyError (key : string)
| TypeError.

Inductive Result (A : Type) : Type :=
| Ok (a : A)
| Raise (e : exn).
Arguments Ok {A} a.
Arguments Raise {A} e.

Definition is_ok {A} (r : Result A) : bool :=
  match r with Ok _ => true | Raise _ => false end.

(** [obj[key]] for a string key: a [dict] looks the key up, every other
    value refuses a string subscript. *)
Definition py_getitem (obj : pyval) (key : string) : Result pyval :=
  match obj with
  | PDict d => match d !! key with
               | Some v => Ok v
               | None => Raise (KeyError key)
               end
  | _ => Raise TypeError
  end.

Definition float_is_zero (f : float) : bool :=
  match Prim2SF f with S754_zero _ => true | _ => false end.

(** [bool(v)]: Python truthiness. *)
Definition py_bool (v : pyval) : bool :=
  match v with
  | PNone => false
  | PBool b => b
  | PInt z => negb (Z.eqb z 0)
  | PFloat f => negb (float_is_zero f)
  | PStr s => negb (String.eqb s EmptyString)
  | PList l => match l with [] => false | _ => true end
  | PDict d => negb (bool_decide (d = ∅))
  end.

(** [v == s] for a string literal [s]: only a [str] with the same
    characters compares equal. *)
Definition py_eq_str (v : pyval) (s : string) : bool :=
  match v with
  | PStr s' => String.eqb s' s
  | _ => false
  end.

(** ** [round(x, 1)]

    On a float, CPython rounds the exact binary value to one decimal
    (ties to even) and converts that decimal back to the nearest double.
    [rne_scaled n e] is the integer nearest to [n * 2^e], ties to even. *)

Definition rne_scaled (n e : Z) : Z :=
  (if 0 <=? e then n * 2 ^ e
   else
     let d := 2 ^ (- e) in
     let q := n / d in
     let r := n mod d in
     match 2 * r ?= d with
     | Lt => q
     | Gt => q + 1
     | Eq => if Z.even q then q else q + 1
     end)%Z.

Definition float_round1 (x : float) : float :=
  match Prim2SF x with
  | S754_finite s m e =>
      match rne_scaled (10 * Zpos m)%Z e with
      | Zpos k =>
          SF2Prim (SFdiv prec emax (S754_finite s k 0%Z) (S754_finite false 10 0%Z))
      | _ => SF2Prim (S754_zero s)
      end
  | _ => x
  end.

(** [round(v, 1)]: an [int] (and a [bool], which is an [int]) comes back as
    an [int]; a [float] is rounded; every other type has no [__round__]. *)
Definition py_round1 (v : pyval) : Result pyval :=
  match v with
  | PBool b => Ok (PInt (if b then 1%Z else 0%Z))
  | PInt z => Ok (PInt z)
  | PFloat f => Ok (PFloat (float_round1 f))
  | _ => Raise TypeError
  end.

(** ** URLs

    [yarl.URL] restricted to what the client uses: splitting a string into
    its five components, [URL.build(scheme=, host=)], [join] as the
    reference resolution of RFC 3986 section 5.2, and recomposition. *)

Record URL : Type := mkURL {
  scheme : option string;
  authority : option string;
  path : string;
  query : option string;
  fragment : option string
}.

Fixpoint break (stop : ascii → bool) (s : string) : string * string :=
  match s with
  | EmptyString => (EmptyString, EmptyString)
  | String c s' =>
      if stop c then (EmptyString, s)
      else let '(a, b) := break stop s' in (String c a, b)
  end.

Definition is_one_of (cs : string) (c : ascii) : bool :=
  existsb (Ascii.eqb c) (list_ascii_of_string cs).

Definition URL_parse (s : string) : URL :=
  let '(pre, r0) := break (is_one_of ":/?#") s in
  let '(sch, r1) :=
    match pre, r0 with
    | String _ _, String ":" r' => (Some pre, r')
    | _, _ => (None, s)
    end in
  let '(auth, r2) :=
    match r1 with
    | String "/" (String "/" r') =>
        let '(a, r'') := break (is_one_of "/?#") r' in (Some a, r'')
    | _ => (None, r1)
    end in
  let '(pth, r3) := break (is_one_of "?#") r2 in
  let '(qry, r4) :=
    match r3 with
    | String "?" r' => let '(q, r'') := break (is_one_of "#") r' in (Some q, r'')
    | _ => (None, r3)
    end in
  let frg := match r4 with String "#" r' => Some r' | _ => None end in
  mkURL sch auth pth qry frg.

Definition URL_build (sch host : string) : URL :=
  mkURL (Some sch) (Some host) EmptyString None None.

Fixpoint strip_prefix (p s : string) : option string :=
  match p, s with
  | EmptyString, _ => Some s
  | String a p', String b s' => if Ascii.eqb a b then strip_prefix p' s' else None
  | String _ _, EmptyString => None
  end.

(** RFC 3986, 5.2.4.  The output buffer is kept as the list of segments
    moved so far, the last one first. *)
Fixpoint remove_dots (fuel : nat) (input : string) (out : list string) : list string :=
  match fuel with
  | O => out
  | S fuel' =>
      if String.eqb input EmptyString then out
      else match strip_prefix "../" input with
      | Some r => remove_dots fuel' r out
      | None =>
      match strip_prefix "./" input with
      | Some r => remove_dots fuel' r out
      | None =>
      match strip_prefix "/./" input with
      | Some r => remove_dots fuel' (String "/" r) out
      | None =>
      if String.eqb input "/." then remove_dots fuel' "/" out
      else match strip_prefix "/../" input with
      | Some r => remove_dots fuel' (String "/" r) (tail out)
      | None =>
      if String.eqb input "/.." then remove_dots fuel' "/" (tail out)
      else if String.eqb input "." || String.eqb input ".." then out
      else match input with
      | String c rest =>
          let '(seg, r) := break (is_one_of "/") rest in
          remove_dots fuel' r (String c seg :: out)
      | EmptyString => out
      end end end end end
  end.

Definition remove_dot_segments (p : string) : string :=
  foldl (λ acc seg, seg +:+ acc) EmptyString (remove_dots (S (String.length p)) p []).

Fixpoint dirname_aux (s : string) : option string :=
  match s with
  | EmptyString => None
  | String c s' =>
      match dirname_aux s' with
      | Some d => Some (String c d)
      | None => if Ascii.eqb c "/" then Some (String c EmptyString) else None
      end
  end.

(** RFC 3986, 5.2.3. *)
Definition merge (base : URL) (rel_path : string) : string :=
  match authority base, path base with
  | Some _, EmptyString => String "/" rel_path
  | _, p => default EmptyString (dirname_aux p) +:+ rel_path
  end.

(** RFC 3986, 5.2.2: [base.join(rel)]. *)
Definition URL_join (base rel : URL) : URL :=
  match scheme rel with
  | Some _ =>
      mkURL (scheme rel) (authority rel) (remove_dot_segments (path rel))
            (query rel) (fragment rel)
  | None =>
      match authority rel with
      | Some _ =>
          mkURL (scheme base) (authority rel) (remove_dot_segments (path rel))
                (query rel) (fragment rel)
      | None =>
          match path rel with
          | EmptyString =>
              mkURL (scheme base) (authority base) (path base)
                    (match query rel with Some q => Some q | None => query base end)
                    (fragment rel)
          | String "/" _ =>
              mkURL (scheme base) (authority base) (remove_dot_segments (path rel))
                    (query rel) (fragment rel)
          | _ =>
              mkURL (scheme base) (authority base)
                    (remove_dot_segments (merge base (path rel)))
                    (query rel) (fragment rel)
          end
      end
  end.

(** RFC 3986, 5.3: [str(url)]. *)
Definition URL_str (u : URL) : string :=
  match scheme u with Some s => s +:+ ":" | None => EmptyString end
  +:+ match authority u with Some a => "//" +:+ a | None => EmptyString end
  +:+ path u
  +:+ match query u with Some q => "?" +:+ q | None => EmptyString end
  +:+ match fragment u with Some f => "#" +:+ f | None => EmptyString end.

(** ** HTTP sessions, requests and the device

    An [aiohttp.ClientSession] is an object in a store; a client and its
    caller may hold the same one.  Its [close] releases the connector the
    first time and does nothing on a session that is already closed. *)

Record ClientSession : Type := mkSession {
  closed : bool;
  releases : nat
}.

Definition new_session : ClientSession := mkSession false 0.

Definition session_close (s : ClientSession) : ClientSession :=
  if closed s then s else mkSession true (S (releases s)).

Inductive http_method : Type := GET | POST.

Record Request : Type := mkRequest {
  rq_method : http_method;
  rq_uri : URL;
  rq_data : pyval;
  rq_session : nat
}.

(** What one attempt comes to: a transport failure or a non-2xx status,
    or the parsed body. *)
Inductive outcome : Type :=
| Failed
| Replied (body : pyval).

(** The device answers a request knowing the requests made before it. *)
Class Device : Type := respond : list Request → Request → outcome.

(** The paths of [dingz/constants.py]. *)
Class Constants : Type := {
  API : string;
  BUTTON_ACTIONS : string;
  DEVICE_INFO : string;
  FRONT_LED_GET : string;
  FRONT_LED_SET : string;
  INPUT_CONFIGURATION : string;
  LIGHT : string;
  PIR_CONFIGURATION : string;
  PUCK : string;
  SETTINGS : string;
  TEMPERATURE : string;
  THERMOSTAT_CONFIGURATION : string
}.

(** ** The client object and the world *)

Record Dingz : Type := mkDingz {
  _close_session : bool;
  _host : string;
  _session : option nat;
  _device_details : pyval;
  _catch_all : gmap string pyval;
  _button_action : pyval;
  _temperature : pyval;
  _intensity : pyval;
  _day : pyval;
  _night : pyval;
  _hour_of_day : pyval;
  uri : URL
}.

Definition set_close_session (v : bool) (d : Dingz) : Dingz :=
  mkDingz v (_host d) (_session d) (_device_details d) (_catch_all d)
          (_button_action d) (_temperature d) (_intensity d) (_day d) (_night d)
          (_hour_of_day d) (uri d).

Definition set_session (v : option nat) (d : Dingz) : Dingz :=
  mkDingz (_close_session d) (_host d) v (_device_details d) (_catch_all d)
          (_button_action d) (_temperature d) (_intensity d) (_day d) (_night d)
          (_hour_of_day d) (uri d).

Definition set_device_details (v : pyval) (d : Dingz) : Dingz :=
  mkDingz (_close_session d) (_host d) (_session d) v (_catch_all d)
          (_button_action d) (_temperature d) (_intensity d) (_day d) (_night d)
          (_hour_of_day d) (uri d).

Definition set_catch_all (v : gmap string pyval) (d : Dingz) : Dingz :=
  mkDingz (_close_session d) (_host d) (_session d) (_device_details d) v
          (_button_action d) (_temperature d) (_intensity d) (_day d) (_night d)
          (_hour_of_day d) (uri d).

Definition set_button_action (v : pyval) (d : Dingz) : Dingz :=
  mkDingz (_close_session d) (_host d) (_session d) (_device_details d) (_catch_all d)
          v (_temperature d) (_intensity d) (_day d) (_night d)
          (_hour_of_day d) (uri d).

Definition set_temperature (v : pyval) (d : Dingz) : Dingz :=
  mkDingz (_close_session d) (_host d) (_session d) (_device_details d) (_catch_all d)
          (_button_action d) v (_intensity d) (_day d) (_night d)
          (_hour_of_day d) (uri d).

Definition set_intensity (v : pyval) (d : Dingz) : Dingz :=
  mkDingz (_close_session d) (_host d) (_session d) (_device_details d) (_catch_all d)
          (_button_action d) (_temperature d) v (_day d) (_night d)
          (_hour_of_day d) (uri d).

Definition set_hour_of_day (v : pyval) (d : Dingz) : Dingz :=
  mkDingz (_close_session d) (_host d) (_session d) (_device_details d) (_catch_all d)
          (_button_action d) (_temperature d) (_intensity d) (_day d) (_night d)
          v (uri d).

Record World : Type := mkWorld {
  self : Dingz;
  sessions : list ClientSession;
  wire : list Request;
  stdout : list pyval
}.

Definition with_self (f : Dingz → Dingz) (w : World) : World :=
  mkWorld (f (self w)) (sessions w) (wire w) (stdout w).

(** ** The monad of the methods

    A method takes the world to a result and a world.  An exception keeps
    whatever was written before it was raised. *)

Definition M (A : Type) : Type := World → Result A * World.

#[global] Instance M_ret : MRet M := λ A a w, (Ok a, w).

#[global] Instance M_bind : MBind M :=
  λ A B k m w, match m w with
               | (Ok a, w') => k a w'
               | (Raise e, w') => (Raise e, w')
               end.

Definition raise {A} (e : exn) : M A := λ w, (Raise e, w).

Definition lift {A} (r : Result A) : M A := λ w, (r, w).

Definition get_self : M Dingz := λ w, (Ok (self w), w).

Definition modify_self (f : Dingz → Dingz) : M unit :=
  λ w, (Ok tt, with_self f w).

Definition print (v : pyval) : M unit :=
  λ w, (Ok tt, mkWorld (self w) (sessions w) (wire w) (stdout w ++ [v])).

(** ** [make_call] *)

(** The session a call goes over: the client's own, or a new one that the
    client then owns. *)
Definition ensure_session : M nat :=
  λ w, match _session (self w) with
       | Some sid => (Ok sid, w)
       | None =>
           let sid := length (sessions w) in
           (Ok sid,
            mkWorld (set_close_session true (set_session (Some sid) (self w)))
                    (sessions w ++ [new_session]) (wire w) (stdout w))
       end.

Definition send `{Device} (rq : Request) : M pyval :=
  λ w, let w' := mkWorld (self w) (sessions w) (wire w ++ [rq]) (stdout w) in
       match respond (wire w) rq with
       | Failed => (Raise DingzError, w')
       | Replied body => (Ok body, w')
       end.

(** Modelled from the spec: [make_call] of the package's [__init__.py],
    which the sources at hand do not hold.  Given a target URI, a method
    and an optional body it performs the request over the managed session,
    creating and owning one when the client has none, makes exactly one
    attempt, raises the one error kind on a failure and returns the parsed
    body on success. *)
Definition make_call `{Device} (url : URL) (method : http_method) (data : pyval) : M pyval :=
  sid ← ensure_session;
  send (mkRequest method url data sid).

(** ** The class [Dingz] *)

Definition __init__ `{Constants} (host : string) (session : option nat) : Dingz :=
  mkDingz false host session PNone ∅ PNone PNone PNone PNone PNone PNone
          (URL_join (URL_build "http" host) (URL_parse API)).

Section Methods.
Context `{Constants} `{Device}.

Definition get_device_info : M unit :=
  d ← get_self;
  let url := URL_join (uri d) (URL_parse DEVICE_INFO) in
  response ← make_call url GET PNone;
  modify_self (set_device_details response).

Fixpoint get_info_loop (endpoints : list string) : M unit :=
  match endpoints with
  | [] => mret tt
  | endpoint :: rest =>
      d ← get_self;
      let url := URL_join (uri d) (URL_parse endpoint) in
      response ← make_call url GET PNone;
      modify_self (λ d, set_catch_all (<[endpoint := response]> (_catch_all d)) d);;
      get_info_loop rest
  end.

Definition info_endpoints : list string :=
  [PUCK; DEVICE_INFO; SETTINGS; PIR_CONFIGURATION; THERMOSTAT_CONFIGURATION;
   INPUT_CONFIGURATION; BUTTON_ACTIONS].

Definition get_info : M unit := get_info_loop info_endpoints.

Definition get_temperature : M unit :=
  d ← get_self;
  let url := URL_join (uri d) (URL_parse TEMPERATURE) in
  response ← make_call url GET PNone;
  t ← lift (py_getitem response "temperature");
  modify_self (set_temperature t).

Definition get_button_action : M unit :=
  d ← get_self;
  let url := URL_join (uri d) (URL_parse BUTTON_ACTIONS) in
  response ← make_call url GET PNone;
  modify_self (set_button_action response).

Definition get_light : M unit :=
  d ← get_self;
  let url := URL_join (uri d) (URL_parse LIGHT) in
  response ← make_call url GET PNone;
  print response;;
  i ← lift (py_getitem response "intensity");
  modify_self (set_intensity i);;
  s ← lift (py_getitem response "state");
  modify_self (set_hour_of_day s).

Definition enabled : M bool :=
  d ← get_self;
  let url := URL_join (uri d) (URL_parse FRONT_LED_GET) in
  response ← make_call url GET PNone;
  on ← lift (py_getitem response "on");
  mret (py_bool on).

Definition turn_on : M unit :=
  let data := PDict {[ "action" := PStr "on" ]} in
  d ← get_self;
  let url := URL_join (uri d) (URL_parse FRONT_LED_SET) in
  make_call url POST data;;
  mret tt.

Definition turn_off : M unit :=
  let data := PDict {[ "action" := PStr "off" ]} in
  d ← get_self;
  let url := URL_join (uri d) (URL_parse FRONT_LED_SET) in
  make_call url POST data;;
  mret tt.

End Methods.

Definition device_details (d : Dingz) : pyval := _device_details d.

Definition everything (d : Dingz) : pyval := PDict (_catch_all d).

Definition button_action (d : Dingz) : pyval := _button_action d.

Definition temperature (d : Dingz) : Result pyval := py_round1 (_temperature d).

Definition day (d : Dingz) : bool :=
  if py_eq_str (_hour_of_day d) "day" then true else false.

Definition night (d : Dingz) : bool :=
  if py_eq_str (_hour_of_day d) "night" then true else false.

Definition intensity (d : Dingz) : Result pyval := py_round1 (_intensity d).

Definition close : M unit :=
  λ w, match _session (self w) with
       | Some sid =>
           if _close_session (self w)
           then (Ok tt, mkWorld (self w) (alter session_close sid (sessions w))
                                (wire w) (stdout w))
           else (Ok tt, w)
       | None => (Ok tt, w)
       end.

Definition __aenter__ : M unit := mret tt.

Definition __aexit__ : M unit := close.

(** ** Sequences of calls

    What a caller can do with a client, one call after the other; a caller
    that catches an exception goes on with the client as the failed call
    left it. *)

Inductive op : Type :=
| GetDeviceInfo | GetInfo | GetTemperature | GetButtonAction | GetLight
| Enabled | TurnOn | TurnOff | Close | AEnter | AExit.

#[global] Instance op_eq_dec : EqDecision op.
Proof. solve_decision. Defined.

Section Calls.
Context `{Constants} `{Device}.

Definition exec (o : op) : M pyval :=
  match o with
  | GetDeviceInfo => get_device_info;; mret PNone
  | GetInfo => get_info;; mret PNone
  | GetTemperature => get_temperature;; mret PNone
  | GetButtonAction => get_button_action;; mret PNone
  | GetLight => get_light;; mret PNone
  | Enabled => b ← enabled; mret (PBool b)
  | TurnOn => turn_on;; mret PNone
  | TurnOff => turn_off;; mret PNone
  | Close => close;; mret PNone
  | AEnter => __aenter__;; mret PNone
  | AExit => __aexit__;; mret PNone
  end.

Fixpoint run (ops : list op) (w : World) : World :=
  match ops with
  | [] => w
  | o :: ops' => run ops' (snd (exec o w))
  end.

End Calls.

(** Every endpoint path the client knows. *)
Definition all_endpoints `{Constants} : list string :=
  [BUTTON_ACTIONS; DEVICE_INFO; FRONT_LED_GET; FRONT_LED_SET; INPUT_CONFIGURATION;
   LIGHT; PIR_CONFIGURATION; PUCK; SETTINGS; TEMPERATURE; THERMOSTAT_CONFIGURATION].

(** The calls that end in [close]. *)
Definition is_close (o : op) : bool :=
  match o with
  | Close | AExit => true
  | _ => false
  end.

(** The world right after [Dingz(host, session)], with the sessions that
    exist at that moment. *)
Definition world_init `{Constants} (host : string) (session : option nat)
    (ss : list ClientSession) : World :=
  mkWorld (__init__ host session) ss [] [].

(** The session the next call goes over, and the request a method makes
    for an endpoint. *)
Definition session_of (w : World) : nat :=
  match _session (self w) with
  | Some sid => sid
  | None => length (sessions w)
  end.

Definition request_of (w : World) (method : http_method) (endpoint : string)
    (data : pyval) : Request :=
  mkRequest method (URL_join (uri (self w)) (URL_parse endpoint)) data (session_of w).

(** The cached fields behind the accessors. *)
Definition cached (d : Dingz) : pyval * gmap string pyval * pyval * pyval * pyval * pyval :=
  (_device_details d, _catch_all d, _button_action d, _temperature d,
   _intensity d, _hour_of_day d).

(** The fields with one value at a time, and the call that refreshes
    each. *)
Inductive field : Type :=
| FDeviceDetails | FButtonAction | FTemperature | FIntensity | FHourOfDay.

Definition read (f : field) (d : Dingz) : pyval :=
  match f with
  | FDeviceDetails => _device_details d
  | FButtonAction => _button_action d
  | FTemperature => _temperature d
  | FIntensity => _intensity d
  | FHourOfDay => _hour_of_day d
  end.

Definition refresher (f : field) : op :=
  match f with
  | FDeviceDetails => GetDeviceInfo
  | FButtonAction => GetButtonAction
  | FTemperature => GetTemperature
  | FIntensity | FHourOfDay => GetLight
  end.

(** The world a call of [make_call] with request [rq] leaves: the session
    is there, the request is on the wire. *)
Definition called (w : World) (rq : Request) : World :=
  mkWorld (self (snd (ensure_session w))) (sessions (snd (ensure_session w)))
          (wire w ++ [rq]) (stdout w).

(** The world after [print(v)]. *)
Definition printed (v : pyval) (w : World) : World :=
  mkWorld (self w) (sessions w) (wire w) (stdout w ++ [v]).

(** [m[k] = v] for each pair in turn. *)
Definition store (kvs : list (string * pyval)) (m : gmap string pyval) : gmap string pyval :=
  foldl (λ acc kv, <[kv.1 := kv.2]> acc) m kvs.

Section Traces.
Context `{Constants} `{Device}.

(** The bodies a run of requests brings back when each is sent only after
    the one before it was answered: the run stops at the first failure. *)
Fixpoint replies (history : list Request) (rqs : list Request) : list pyval :=
  match rqs with
  | [] => []
  | rq :: rest =>
      match respond history rq with
      | Replied body => body :: replies (history ++ [rq]) rest
      | Failed => []
      end
  end.

Definition requests_for (w : World) (endpoints : list string) : list Request :=
  map (λ e, request_of w GET e PNone) endpoints.

Definition info_requests (w : World) : list Request :=
  requests_for w info_endpoints.

Definition info_replies (w : World) : list pyval :=
  replies (wire w) (info_requests w).

(** The first request a call makes, if it makes any. *)
Definition first_request (o : op) (w : World) : option Request :=
  match o with
  | GetDeviceInfo => Some (request_of w GET DEVICE_INFO PNone)
  | GetInfo => Some (request_of w GET PUCK PNone)
  | GetTemperature => Some (request_of w GET TEMPERATURE PNone)
  | GetButtonAction => Some (request_of w GET BUTTON_ACTIONS PNone)
  | GetLight => Some (request_of w GET LIGHT PNone)
  | Enabled => Some (request_of w GET FRONT_LED_GET PNone)
  | TurnOn => Some (request_of w POST FRONT_LED_SET (PDict {[ "action" := PStr "on" ]}))
  | TurnOff => Some (request_of w POST FRONT_LED_SET (PDict {[ "action" := PStr "off" ]}))
  | Close | AEnter | AExit => None
  end.

Definition first_answered (o : op) (w : World) : bool :=
  match first_request o w with
  | Some rq => match respond (wire w) rq with
               | Replied _ => true
               | Failed => false
               end
  | None => false
  end.

(** Running [ops] from [w], some call of [o] had its first request
    answered. *)
Fixpoint answered (o : op) (ops : list op) (w : World) : bool :=
  match ops with
  | [] => false
  | o' :: ops' =>
      (bool_decide (o' = o) && first_answered o' w)
      || answered o ops' (snd (exec o' w))
  end.

End Traces.

(** ** A sample configuration *)

Definition sample_constants : Constants := {|
  API := "/api/v1/";
  BUTTON_ACTIONS := "action";
  DEVICE_INFO := "device";
  FRONT_LED_GET := "led/get";
  FRONT_LED_SET := "led/set";
  INPUT_CONFIGURATION := "input_config";
  LIGHT := "light";
  PIR_CONFIGURATION := "pir_config";
  PUCK := "puck";
  SETTINGS := "settings";
  TEMPERATURE := "temp";
  THERMOSTAT_CONFIGURATION := "thermostat_config"
|}.

(** A device that answers the sensor and LED endpoints and fails
    elsewhere. *)
Definition sensor_device : Device :=
  λ _ rq,
    if String.eqb (path (rq_uri rq)) "/api/v1/temp"
    then Replied (PDict {[ "temperature" := PFloat 21.37 ]})
    else if String.eqb (path (rq_uri rq)) "/api/v1/light"
    then Replied (PDict (<[ "intensity" := PFloat 123.456 ]> {[ "state" := PStr "night" ]}))
    else if String.eqb (path (rq_uri rq)) "/api/v1/led/get"
    then Replied (PDict {[ "on" := PBool true ]})
    else Failed.

(** A device that answers every request with the number of requests it
    has seen before. *)
Definition counting_device : Device :=
  λ history _, Replied (PDict {[ "seen" := PInt (Z.of_nat (length history)) ]}).

(** A device that answers the puck endpoint only. *)
Definition puck_only_device : Device :=
  λ _ rq,
    if String.eqb (path (rq_uri rq)) "/api/v1/puck"
    then Replied (PDict {[ "version" := PStr "1.0" ]})
    else Failed.

(** A device that answers its first eight requests, each with the number
    of requests it has seen before, and then goes away. *)
Definition fading_device : Device :=
  λ history _,
    if Nat.ltb (length history) 8
    then Replied (PDict {[ "seen" := PInt (Z.of_nat (length history)) ]})
    else Failed.

(** A device that is not there. *)
Definition dead_device : Device := λ _ _, Failed.

(** ** Devices without memory *)

(** The answer of the device depends on the request only. *)
Definition history_free `{Device} : Prop :=
  ∀ (h h' : list Request) (rq : Request), respond h rq = respond h' rq.

(** The calls that go to the device. *)
Definition makes_request (o : op) : bool :=
  match o with
  | Close | AEnter | AExit => false
  | _ => true
  end.

(** ** The cache as a value *)

(** What a call makes of the cached fields, given what the device answers
    in the world [w]. *)
Definition refreshed `{Constants} `{Device} (o : op) (w : World)
    (c : pyval * gmap string pyval * pyval * pyval * pyval * pyval) :
    pyval * gmap string pyval * pyval * pyval * pyval * pyval :=
  let '(dd, ca, ba, t, i, h) := c in
  match o with
  | GetDeviceInfo =>
      match respond (wire w) (request_of w GET DEVICE_INFO PNone) with
      | Replied body => (body, ca, ba, t, i, h)
      | Failed => c
      end
  | GetInfo => (dd, store (zip info_endpoints (info_replies w)) ca, ba, t, i, h)
  | GetTemperature =>
      match respond (wire w) (request_of w GET TEMPERATURE PNone) with
      | Replied body =>
          match py_getitem body "temperature" with
          | Ok v => (dd, ca, ba, v, i, h)
          | Raise _ => c
          end
      | Failed => c
      end
  | GetButtonAction =>
      match respond (wire w) (request_of w GET BUTTON_ACTIONS PNone) with
      | Replied body => (dd, ca, body, t, i, h)
      | Failed => c
      end
  | GetLight =>
      match respond (wire w) (request_of w GET LIGHT PNone) with
      | Replied body =>
          match py_getitem body "intensity" with
          | Ok v =>
              match py_getitem body "state" with
              | Ok s => (dd, ca, ba, t, v, s)
              | Raise _ => (dd, ca, ba, t, v, h)
              end
          | Raise _ => c
          end
      | Failed => c
      end
  | _ => c
  end.

(** ** Plain paths *)



(** A host name in lower case. *)
Definition plain_host (s : string) : bool :=
  forallb (λ c, let n := nat_of_ascii c in
                (Nat.leb 97 n && Nat.leb n 122) || (Nat.leb 48 n && Nat.leb n 57)
                || is_one_of "-." c)
          (list_ascii_of_string s)
  && negb (String.eqb s EmptyString).

(** [/s1/s2/.../sn] and [s1/s2/.../sn]. *)
Fixpoint abs_path (segs : list string) : string :=
  match segs with
  | [] => EmptyString
  | s :: rest => String "/" (s +:+ abs_path rest)
  end.

Definition rel_path (segs : list string) : string :=
  match segs with
  | [] => EmptyString
  | s :: rest => s +:+ abs_path rest
  end.




(** A device that answers every request with the path it was asked for. *)
Definition echo_device : Device :=
  λ _ rq, Replied (PDict {[ "path" := PStr (path (rq_uri rq)) ]}).

(** A device whose light sensor leaves the state out. *)
Definition stateless_light_device : Device :=
  λ _ rq,
    if String.eqb (path (rq_uri rq)) "/api/v1/light"
    then Replied (PDict {[ "intensity" := PFloat 7.25 ]})
    else Replied (PStr "ok").

(** ** Calls that succeeded *)

Section Succeeded.
Context `{Constants} `{Device}.

(** Running [ops] from [w], some call of [o] returned without raising. *)
Fixpoint returned (o : op) (ops : list op) (w : World) : bool :=
  match ops with
  | [] => false
  | o' :: ops' =>
      (bool_decide (o' = o) && is_ok (fst (exec o' w)))
      || returned o ops' (snd (exec o' w))
  end.

(** In the world [w] the light endpoint answers with a body that holds
    [intensity]. *)
Definition holds_intensity (w : World) : bool :=
  match respond (wire w) (request_of w GET LIGHT PNone) with
  | Replied body => is_ok (py_getitem body "intensity")
  | Failed => false
  end.

(** Running [ops] from [w], some [get_light] received such a body. *)
Fixpoint intensity_received (ops : list op) (w : World) : bool :=
  match ops with
  | [] => false
  | o :: ops' =>
      (bool_decide (o = GetLight) && holds_intensity w)
      || intensity_received ops' (snd (exec o w))
  end.

(** The URLs of the requests on the wire. *)
Definition urls (w : World) : list URL := map rq_uri (wire w).

(** The client's session, if it has one, is open. *)
Definition session_open (w : World) : Prop :=
  ∀ sid s, _session (self w) = Some sid → sessions w !! sid = Some s →
           closed s = false.

End Succeeded.

(** A device that answers its first six requests and then goes away. *)
Definition six_device : Device :=
  λ history _,
    if Nat.ltb (length history) 6
    then Replied (PDict {[ "seen" := PInt (Z.of_nat (length history)) ]})
    else Failed.

(** * Properties *)

(** ** Rounding *)

(** [rne_scaled n e] is within one half of [n * 2^e], and even when it is
    exactly one half away. *)
Lemma rne_scaled_nearest (n e : Z) :
  (e < 0)%Z →
  (Z.abs (2 * n - 2 * rne_scaled n e * 2 ^ (- e)) ≤ 2 ^ (- e))%Z
  ∧ (Z.abs (2 * n - 2 * rne_scaled n e * 2 ^ (- e)) = 2 ^ (- e) →
       Z.even (rne_scaled n e) = true)%Z.
Proof.
  intros He. unfold rne_scaled.
  destruct (Z.leb_spec 0 e) as [Hge|_]; [lia|].
  assert (Hd : (0 < 2 ^ (- e))%Z) by (apply Z.pow_pos_nonneg; lia).
  generalize dependent (2 ^ (- e))%Z. intros d Hd.
  pose proof (Z.div_mod n d ltac:(lia)) as Hn.
  pose proof (Z.mod_pos_bound n d Hd) as Hr.
  destruct (Z.compare_spec (2 * (n mod d)) d) as [Heq|Hlt|Hgt].
  - destruct (Z.even (n / d)) eqn:Hev.
    + split; [nia|intros _; exact Hev].
    + split; [nia|]. intros _. rewrite Z.even_add, Hev. reflexivity.
  - split; [nia|]. intros Habs. nia.
  - split; [nia|]. intros Habs. nia.
Qed.

(** ** What each method computes *)

Section Equations.
Context `{Constants} `{Device}.

Lemma make_call_eq (url : URL) (method : http_method) (data : pyval) (w : World) :
  make_call url method data w =
  (match respond (wire w) (mkRequest method url data (session_of w)) with
   | Failed => Raise DingzError
   | Replied body => Ok body
   end,
   called w (mkRequest method url data (session_of w))).
Proof.
  unfold called, make_call, mbind, M_bind, send, session_of, ensure_session.
  destruct (_session (self w)); simpl; destruct (respond _ _); reflexivity.
Qed.

Ltac step_method :=
  unfold mbind, M_bind, get_self, modify_self, print, lift, mret, M_ret;
  rewrite ?make_call_eq; unfold request_of;
  repeat match goal with
         | |- context [match respond ?h ?r with _ => _ end] => destruct (respond h r)
         | |- context [match py_getitem ?b ?k with _ => _ end] => destruct (py_getitem b k)
         end;
  try reflexivity.

Lemma get_device_info_eq (w : World) :
  get_device_info w =
  let rq := request_of w GET DEVICE_INFO PNone in
  match respond (wire w) rq with
  | Failed => (Raise DingzError, called w rq)
  | Replied body => (Ok tt, with_self (set_device_details body) (called w rq))
  end.
Proof. unfold get_device_info. step_method. Qed.

Lemma get_temperature_eq (w : World) :
  get_temperature w =
  let rq := request_of w GET TEMPERATURE PNone in
  match respond (wire w) rq with
  | Failed => (Raise DingzError, called w rq)
  | Replied body =>
      match py_getitem body "temperature" with
      | Ok t => (Ok tt, with_self (set_temperature t) (called w rq))
      | Raise e => (Raise e, called w rq)
      end
  end.
Proof. unfold get_temperature. step_method. Qed.

Lemma get_button_action_eq (w : World) :
  get_button_action w =
  let rq := request_of w GET BUTTON_ACTIONS PNone in
  match respond (wire w) rq with
  | Failed => (Raise DingzError, called w rq)
  | Replied body => (Ok tt, with_self (set_button_action body) (called w rq))
  end.
Proof. unfold get_button_action. step_method. Qed.

Lemma get_light_eq (w : World) :
  get_light w =
  let rq := request_of w GET LIGHT PNone in
  match respond (wire w) rq with
  | Failed => (Raise DingzError, called w rq)
  | Replied body =>
      let w1 := printed body (called w rq) in
      match py_getitem body "intensity" with
      | Raise e => (Raise e, w1)
      | Ok i =>
          match py_getitem body "state" with
          | Raise e => (Raise e, with_self (set_intensity i) w1)
          | Ok s => (Ok tt, with_self (set_hour_of_day s) (with_self (set_intensity i) w1))
          end
      end
  end.
Proof. unfold get_light. step_method. Qed.

Lemma enabled_eq (w : World) :
  enabled w =
  let rq := request_of w GET FRONT_LED_GET PNone in
  (match respond (wire w) rq with
   | Failed => Raise DingzError
   | Replied body =>
       match py_getitem body "on" with
       | Ok on => Ok (py_bool on)
       | Raise e => Raise e
       end
   end, called w rq).
Proof. unfold enabled. step_method. Qed.

Lemma turn_on_eq (w : World) :
  turn_on w =
  let rq := request_of w POST FRONT_LED_SET (PDict {[ "action" := PStr "on" ]}) in
  (match respond (wire w) rq with
   | Failed => Raise DingzError
   | Replied _ => Ok tt
   end, called w rq).
Proof. unfold turn_on. step_method. Qed.

Lemma turn_off_eq (w : World) :
  turn_off w =
  let rq := request_of w POST FRONT_LED_SET (PDict {[ "action" := PStr "off" ]}) in
  (match respond (wire w) rq with
   | Failed => Raise DingzError
   | Replied _ => Ok tt
   end, called w rq).
Proof. unfold turn_off. step_method. Qed.

Lemma session_of_called (w : World) (rq : Request) :
  session_of (called w rq) = session_of w.
Proof.
  unfold session_of, called, ensure_session.
  destruct (_session (self w)) eqn:E; simpl; [rewrite E|]; reflexivity.
Qed.

Lemma cached_called (w : World) (rq : Request) :
  cached (self (called w rq)) = cached (self w).
Proof.
  unfold called, ensure_session. destruct (_session (self w)); reflexivity.
Qed.

Lemma uri_called (w : World) (rq : Request) :
  uri (self (called w rq)) = uri (self w).
Proof.
  unfold called, ensure_session. destruct (_session (self w)); reflexivity.
Qed.

Lemma session_called (w : World) (rq : Request) :
  _session (self (called w rq)) = Some (session_of w).
Proof.
  unfold session_of, called, ensure_session.
  destruct (_session (self w)) eqn:E; simpl; [rewrite E|]; reflexivity.
Qed.

Lemma ensure_session_some (w : World) (sid : nat) :
  _session (self w) = Some sid → ensure_session w = (Ok sid, w).
Proof. intros E. unfold ensure_session. rewrite E. reflexivity. Qed.

Lemma catch_all_ensure (w : World) :
  _catch_all (self (snd (ensure_session w))) = _catch_all (self w).
Proof. unfold ensure_session. destruct (_session (self w)); reflexivity. Qed.

Lemma set_catch_all_same (d : Dingz) : set_catch_all (_catch_all d) d = d.
Proof. destruct d; reflexivity. Qed.

Lemma get_info_loop_eq (endpoints : list string) (w : World) :
  get_info_loop endpoints w =
  let rqs := requests_for w endpoints in
  let bs := replies (wire w) rqs in
  (if bool_decide (length bs = length endpoints) then Ok tt else Raise DingzError,
   match endpoints with
   | [] => w
   | _ => mkWorld (set_catch_all (store (zip endpoints bs) (_catch_all (self w)))
                                 (self (snd (ensure_session w))))
                  (sessions (snd (ensure_session w)))
                  (wire w ++ take (S (length bs)) rqs) (stdout w)
   end).
Proof.
  revert w. induction endpoints as [|e rest IH]; intros w.
  - reflexivity.
  - cbn [get_info_loop]. unfold mbind at 1, M_bind at 1, get_self.
    unfold mbind at 1, M_bind at 1. rewrite make_call_eq.
    cbn [requests_for map replies]. fold (request_of w GET e PNone).
    fold (requests_for w rest).
    destruct (respond (wire w) (request_of w GET e PNone)) as [|b] eqn:Hr.
    + cbn. f_equal. unfold called.
      rewrite <- (catch_all_ensure w). rewrite set_catch_all_same.
      rewrite take_0. reflexivity.
    + unfold mbind, M_bind at 1, modify_self.
      set (w2 := with_self _ (called w _)).
      rewrite (IH w2).
      assert (Hrq : requests_for w2 rest = requests_for w rest).
      { unfold requests_for, request_of, w2. cbn [self with_self].
        assert (Hs : session_of (with_self
                  (λ d, set_catch_all (<[e:=b]> (_catch_all d)) d)
                  (called w (request_of w GET e PNone))) = session_of w).
        { rewrite <- (session_of_called w (request_of w GET e PNone)).
          unfold session_of. cbn. reflexivity. }
        fold (request_of w GET e PNone). rewrite Hs.
        assert (Hu : uri (set_catch_all (<[e:=b]> (_catch_all (self (called w (request_of w GET e PNone)))))
                       (self (called w (request_of w GET e PNone)))) = uri (self w)).
        { cbn [uri set_catch_all]. apply uri_called. }
        rewrite Hu. reflexivity. }
      rewrite Hrq.
      assert (Hw : wire w2 = (wire w ++ [request_of w GET e PNone])%list) by reflexivity.
      rewrite Hw. cbn [length].
      f_equal.
      * rewrite (bool_decide_ext (S _ = S _) (length (replies (wire w ++ [request_of w GET e PNone]) (requests_for w rest)) = length rest)) by lia. reflexivity.
      * destruct rest as [|e' rest'].
        -- cbn. unfold w2, with_self, called. cbn.
           rewrite catch_all_ensure. reflexivity.
        -- assert (He : snd (ensure_session w2) = w2).
           { rewrite (ensure_session_some w2 (session_of w)); [reflexivity|].
             apply (session_called w). }
           rewrite He. unfold w2, with_self, called.
           cbn [self sessions wire stdout]. f_equal.
           ++ rewrite catch_all_ensure. reflexivity.
           ++ rewrite <- app_assoc. reflexivity.
Qed.

End Equations.

Section Sensors.
Context `{Constants} `{Device}.

(** C1. A successful [get_temperature] whose body holds [temperature = t]
    stores [t] as it came, and the [temperature] accessor gives [t] rounded
    to one decimal when it is read: 21.37 is stored as 21.37 and read as
    21.4. *)
Theorem get_temperature_rounds_on_read (w : World) (body t : pyval) :
  respond (wire w) (request_of w GET TEMPERATURE PNone) = Replied body →
  py_getitem body "temperature" = Ok t →
  fst (get_temperature w) = Ok tt
  ∧ _temperature (self (snd (get_temperature w))) = t
  ∧ temperature (self (snd (get_temperature w))) = py_round1 t
  ∧ (∀ f, t = PFloat f →
       temperature (self (snd (get_temperature w))) = Ok (PFloat (float_round1 f)))
  ∧ (t = PFloat 21.37 →
       temperature (self (snd (get_temperature w))) = Ok (PFloat 21.4)).
Proof.
  intros Hreply Hfield.
  rewrite get_temperature_eq. cbn zeta. rewrite Hreply, Hfield.
  cbn [fst snd self with_self]. unfold temperature.
  change (_temperature (set_temperature t ?d)) with t.
  repeat split; intros; subst; reflexivity.
Qed.

(** C2. A successful [get_light] whose body holds [intensity = i] and
    [state = s] stores both; afterwards [intensity] gives [i] rounded to one
    decimal, and [night] and [day] compare [s] with the strings "night" and
    "day": for 123.456 and "night" they give 123.5, true and false. *)
Theorem get_light_caches_intensity_and_state (w : World) (body i s : pyval) :
  respond (wire w) (request_of w GET LIGHT PNone) = Replied body →
  py_getitem body "intensity" = Ok i →
  py_getitem body "state" = Ok s →
  fst (get_light w) = Ok tt
  ∧ _intensity (self (snd (get_light w))) = i
  ∧ _hour_of_day (self (snd (get_light w))) = s
  ∧ intensity (self (snd (get_light w))) = py_round1 i
  ∧ night (self (snd (get_light w))) = py_eq_str s "night"
  ∧ day (self (snd (get_light w))) = py_eq_str s "day"
  ∧ (i = PFloat 123.456 → s = PStr "night" →
       intensity (self (snd (get_light w))) = Ok (PFloat 123.5)
       ∧ night (self (snd (get_light w))) = true
       ∧ day (self (snd (get_light w))) = false).
Proof.
  intros Hreply Hi Hs.
  rewrite get_light_eq. cbn zeta. rewrite Hreply, Hi, Hs.
  cbn [fst snd self with_self]. unfold intensity, night, day.
  change (_intensity (set_hour_of_day s (set_intensity i ?d))) with i.
  change (_hour_of_day (set_hour_of_day s ?d)) with s.
  repeat split; intros; subst; try reflexivity;
    destruct (py_eq_str _ _); reflexivity.
Qed.

(** C8. [turn_on] puts exactly one request on the wire, a POST to the
    LED endpoint with the body [{"action": "on"}], and [turn_off] exactly
    one with [{"action": "off"}], whatever the device answers. *)
Theorem front_led_posts_once (w : World) :
  wire (snd (turn_on w)) =
    wire w ++ [mkRequest POST (URL_join (uri (self w)) (URL_parse FRONT_LED_SET))
                         (PDict {[ "action" := PStr "on" ]}) (session_of w)]
  ∧ wire (snd (turn_off w)) =
    wire w ++ [mkRequest POST (URL_join (uri (self w)) (URL_parse FRONT_LED_SET))
                         (PDict {[ "action" := PStr "off" ]}) (session_of w)].
Proof. rewrite turn_on_eq, turn_off_eq. split; reflexivity. Qed.

(** C9. [enabled], [turn_on] and [turn_off] leave every cached field as
    it was, and [enabled] returns the truth value of the field [on] of the
    body. *)
Theorem front_led_calls_keep_cache (w : World) :
  cached (self (snd (enabled w))) = cached (self w)
  ∧ cached (self (snd (turn_on w))) = cached (self w)
  ∧ cached (self (snd (turn_off w))) = cached (self w)
  ∧ (∀ body on,
       respond (wire w) (request_of w GET FRONT_LED_GET PNone) = Replied body →
       py_getitem body "on" = Ok on →
       fst (enabled w) = Ok (py_bool on)).
Proof.
  rewrite enabled_eq, turn_on_eq, turn_off_eq. cbn zeta. cbn [fst snd].
  rewrite !cached_called. repeat split.
  intros body on Hreply Hon. rewrite Hreply, Hon. reflexivity.
Qed.

End Sensors.

Section Frames.
Context `{Constants} `{Device}.

Lemma snd_then {A B} (m : M A) (b : B) (w : World) :
  snd ((m;; mret b) w) = snd (m w).
Proof. unfold mbind, M_bind. destruct (m w) as [[a|e] w']; reflexivity. Qed.

Lemma exec_world (o : op) (w : World) :
  snd (exec o w) =
  match o with
  | GetDeviceInfo => snd (get_device_info w)
  | GetInfo => snd (get_info w)
  | GetTemperature => snd (get_temperature w)
  | GetButtonAction => snd (get_button_action w)
  | GetLight => snd (get_light w)
  | Enabled => snd (enabled w)
  | TurnOn => snd (turn_on w)
  | TurnOff => snd (turn_off w)
  | Close | AExit => snd (close w)
  | AEnter => w
  end.
Proof.
  destruct o; unfold exec; rewrite ?snd_then; try reflexivity.
  unfold mbind, M_bind. destruct (enabled w) as [[a|e] w']; reflexivity.
Qed.

Lemma read_called (f : field) (w : World) (rq : Request) :
  read f (self (called w rq)) = read f (self w).
Proof.
  unfold called, ensure_session. destruct (_session (self w)), f; reflexivity.
Qed.

Lemma read_ensure (f : field) (w : World) :
  read f (self (snd (ensure_session w))) = read f (self w).
Proof.
  unfold ensure_session. destruct (_session (self w)), f; reflexivity.
Qed.

Lemma close_self (w : World) : self (snd (close w)) = self w.
Proof.
  unfold close. destruct (_session (self w)); [|reflexivity].
  destruct (_close_session (self w)); reflexivity.
Qed.

Lemma get_info_self (w : World) :
  self (snd (get_info w)) =
  set_catch_all (store (zip info_endpoints (info_replies w)) (_catch_all (self w)))
                (self (snd (ensure_session w))).
Proof.
  unfold get_info. rewrite get_info_loop_eq. reflexivity.
Qed.

(** A call that is not the refresher of a field, or whose request the
    device did not answer, leaves the field as it was. *)
Lemma exec_keeps_field (f : field) (o : op) (w : World) :
  o ≠ refresher f ∨ first_answered o w = false →
  read f (self (snd (exec o w))) = read f (self w).
Proof.
  intros Hno. rewrite exec_world.
  destruct o;
    rewrite ?get_device_info_eq, ?get_temperature_eq, ?get_button_action_eq,
            ?get_light_eq, ?enabled_eq, ?turn_on_eq, ?turn_off_eq,
            ?get_info_self, ?close_self;
    cbn zeta; try reflexivity;
    unfold first_answered, first_request in Hno;
    repeat match goal with
           | |- context [match respond ?h ?r with _ => _ end] => destruct (respond h r)
           | |- context [match py_getitem ?b ?k with _ => _ end] => destruct (py_getitem b k)
           end;
    cbn [fst snd self with_self printed].
  all: try apply read_called.
  all: try (match goal with
            | |- read ?g _ = read _ (self ?w0) => rewrite <- (read_ensure g w0); destruct g
            end; reflexivity).
  all: match goal with
       | |- read ?g _ = read _ (self ?w0) =>
           match goal with
           | |- context [called w0 ?rq] => rewrite <- (read_called g w0 rq)
           end
       end;
       destruct f; try reflexivity;
       destruct Hno as [Hno|Hno];
       first [exfalso; apply Hno; reflexivity | discriminate Hno].
Qed.

Lemma exec_keeps_catch_all (o : op) (w : World) :
  o ≠ GetInfo ∨ first_answered o w = false →
  _catch_all (self (snd (exec o w))) = _catch_all (self w).
Proof.
  intros Hno. rewrite exec_world.
  assert (Hcalled : ∀ rq, _catch_all (self (called w rq)) = _catch_all (self w)).
  { intros rq. pose proof (cached_called w rq) as Hc. unfold cached in Hc.
    congruence. }
  destruct o;
    rewrite ?get_device_info_eq, ?get_temperature_eq, ?get_button_action_eq,
            ?get_light_eq, ?enabled_eq, ?turn_on_eq, ?turn_off_eq,
            ?get_info_self, ?close_self;
    cbn zeta; try reflexivity;
    repeat match goal with
           | |- context [match respond ?h ?r with _ => _ end] => destruct (respond h r)
           | |- context [match py_getitem ?b ?k with _ => _ end] => destruct (py_getitem b k)
           end;
    cbn [fst snd self with_self printed _catch_all set_device_details
         set_temperature set_button_action set_intensity set_hour_of_day];
    try apply Hcalled.
  destruct Hno as [Hno|Hno]; [exfalso; apply Hno; reflexivity|].
  unfold first_answered, first_request in Hno.
  unfold info_replies, info_requests, info_endpoints, requests_for.
  cbn [map replies].
  destruct (respond (wire w) (request_of w GET PUCK PNone)); [|discriminate Hno].
  reflexivity.
Qed.

(** As long as no call of its refresher was answered, a field keeps its
    value over a sequence of calls. *)
Lemma run_keeps_field (f : field) (ops : list op) (w : World) :
  answered (refresher f) ops w = false →
  read f (self (run ops w)) = read f (self w).
Proof.
  revert w. induction ops as [|o ops IH]; intros w Hno; [reflexivity|].
  cbn [answered] in Hno. apply orb_false_iff in Hno as [Hhere Hlater].
  cbn [run]. rewrite (IH _ Hlater). apply exec_keeps_field.
  apply andb_false_iff in Hhere as [Hne|Hfail]; [left|right; exact Hfail].
  apply bool_decide_eq_false in Hne. exact Hne.
Qed.

Lemma run_keeps_catch_all (ops : list op) (w : World) :
  answered GetInfo ops w = false →
  _catch_all (self (run ops w)) = _catch_all (self w).
Proof.
  revert w. induction ops as [|o ops IH]; intros w Hno; [reflexivity|].
  cbn [answered] in Hno. apply orb_false_iff in Hno as [Hhere Hlater].
  cbn [run]. rewrite (IH _ Hlater). apply exec_keeps_catch_all.
  apply andb_false_iff in Hhere as [Hne|Hfail]; [left|right; exact Hfail].
  apply bool_decide_eq_false in Hne. exact Hne.
Qed.

End Frames.

Section Store.

Lemma store_cons (k : string) (b : pyval) (kvs : list (string * pyval))
    (m : gmap string pyval) :
  store ((k, b) :: kvs) m = store kvs (<[k := b]> m).
Proof. reflexivity. Qed.

Lemma store_lookup_notin (ks : list string) (bs : list pyval)
    (m : gmap string pyval) (k : string) :
  k ∉ ks → store (zip ks bs) m !! k = m !! k.
Proof.
  revert bs m. induction ks as [|k' ks IH]; intros bs m Hk; [reflexivity|].
  destruct bs as [|b bs]; [reflexivity|].
  apply not_elem_of_cons in Hk as [Hne Hk].
  cbn [zip_with]. rewrite store_cons, IH by exact Hk.
  apply lookup_insert_ne. congruence.
Qed.

Lemma store_lookup_in (ks : list string) (bs : list pyval)
    (m : gmap string pyval) (i : nat) (k : string) :
  NoDup ks → ks !! i = Some k → i < length bs →
  store (zip ks bs) m !! k = bs !! i.
Proof.
  revert bs m i. induction ks as [|k' ks IH]; intros bs m i Hnd Hi Hlt;
    [discriminate Hi|].
  destruct bs as [|b bs]; [cbn in Hlt; lia|].
  apply NoDup_cons in Hnd as [Hnotin Hnd].
  cbn [zip_with]. rewrite store_cons.
  destruct i as [|i].
  - injection Hi as ->. rewrite store_lookup_notin by exact Hnotin.
    apply lookup_insert_eq.
  - cbn in Hi, Hlt. cbn [lookup list_lookup]. apply IH; [exact Hnd|exact Hi|lia].
Qed.

Lemma store_dom (ks : list string) (bs : list pyval) (m : gmap string pyval) :
  dom (store (zip ks bs) m) = list_to_set (take (length bs) ks) ∪ dom m.
Proof.
  revert bs m. induction ks as [|k ks IH]; intros bs m.
  - rewrite take_nil. cbn. set_solver.
  - destruct bs as [|b bs]; [cbn; set_solver|].
    cbn [zip_with length take]. rewrite store_cons, IH, dom_insert_L.
    cbn [list_to_set]. set_solver.
Qed.

Lemma store_lookup_beyond (ks : list string) (bs : list pyval)
    (m : gmap string pyval) (i : nat) (k : string) :
  NoDup ks → ks !! i = Some k → length bs ≤ i →
  store (zip ks bs) m !! k = m !! k.
Proof.
  revert bs m i. induction ks as [|k' ks IH]; intros bs m i Hnd Hi Hge;
    [discriminate Hi|].
  destruct bs as [|b bs]; [reflexivity|].
  apply NoDup_cons in Hnd as [Hnotin Hnd].
  destruct i as [|i]; [cbn in Hge; lia|].
  cbn in Hi, Hge. cbn [zip_with]. rewrite store_cons.
  rewrite (IH bs _ i) by (try assumption; lia).
  apply lookup_insert_ne. intros ->.
  apply Hnotin. apply list_elem_of_lookup. eauto.
Qed.

End Store.

Section Lifecycle.
Context `{Constants} `{Device}.

Lemma replies_length (history rqs : list Request) :
  length (replies history rqs) ≤ length rqs.
Proof.
  revert history. induction rqs as [|rq rqs IH]; intros history; cbn; [lia|].
  destruct (respond history rq); cbn; [lia|]. specialize (IH (history ++ [rq])). lia.
Qed.

Lemma replies_lookup (history rqs : list Request) (i : nat) (rq : Request) (b : pyval) :
  rqs !! i = Some rq → replies history rqs !! i = Some b →
  respond (history ++ take i rqs) rq = Replied b.
Proof.
  revert history i. induction rqs as [|rq' rqs IH]; intros history i Hrq Hb;
    [discriminate Hrq|].
  cbn [replies] in Hb. destruct (respond history rq') as [|b'] eqn:Hr;
    [discriminate Hb|].
  destruct i as [|i].
  - cbn in Hrq, Hb. injection Hrq as <-. injection Hb as <-.
    rewrite take_0, app_nil_r. exact Hr.
  - cbn in Hrq, Hb. cbn [take]. 
    replace (history ++ rq' :: take i rqs) with ((history ++ [rq']) ++ take i rqs)
      by (rewrite <- app_assoc; reflexivity).
    apply IH; assumption.
Qed.

Lemma info_endpoints_length : length info_endpoints = 7.
Proof. reflexivity. Qed.

Lemma info_requests_length (w : World) : length (info_requests w) = 7.
Proof. unfold info_requests, requests_for. rewrite length_map. reflexivity. Qed.

Lemma get_info_result (w : World) :
  fst (get_info w) =
  if bool_decide (length (info_replies w) = 7) then Ok tt else Raise DingzError.
Proof. unfold get_info. rewrite get_info_loop_eq. reflexivity. Qed.

Lemma get_info_wire (w : World) :
  wire (snd (get_info w)) =
  wire w ++ take (S (length (info_replies w))) (info_requests w).
Proof. unfold get_info. rewrite get_info_loop_eq. reflexivity. Qed.

Lemma get_info_catch_all (w : World) :
  _catch_all (self (snd (get_info w))) =
  store (zip info_endpoints (info_replies w)) (_catch_all (self w)).
Proof. rewrite get_info_self. reflexivity. Qed.

Lemma get_info_keeps_field (f : field) (w : World) :
  read f (self (snd (get_info w))) = read f (self w).
Proof.
  rewrite get_info_self, <- (read_ensure f w). destruct f; reflexivity.
Qed.

End Lifecycle.

Section Aggregate.
Context `{Constants} `{Device}.

Lemma replies_stop (history rqs : list Request) :
  length (replies history rqs) < length rqs →
  ∃ rq, rqs !! length (replies history rqs) = Some rq
        ∧ respond (history ++ take (length (replies history rqs)) rqs) rq = Failed.
Proof.
  revert history. induction rqs as [|rq rqs IH]; intros history Hlt;
    [cbn in Hlt; lia|].
  cbn [replies] in *. destruct (respond history rq) as [|b] eqn:Hr.
  - exists rq. cbn. rewrite app_nil_r. split; [reflexivity|exact Hr].
  - cbn [length] in *. destruct (IH (history ++ [rq])) as (rq' & Hrq' & Hfail); [lia|].
    exists rq'. split; [exact Hrq'|].
    cbn [take]. rewrite <- app_assoc in Hfail. exact Hfail.
Qed.

(** C3 as the code has it.  [get_info] sends GET requests one after the
    other, in the order puck, device info, settings, motion sensor,
    thermostat, inputs, button actions, each answered before the next is
    sent, and stops after the first that fails: a call in which the k-th
    request is the first to fail raises with exactly k requests sent, k
    from one to seven.  A call that returns has sent exactly seven; with
    distinct endpoint paths [everything] then holds exactly these seven
    keys, each with the body this call received, whatever a call before had
    stored. *)
Theorem get_info_requests_and_keys (w : World) :
  NoDup info_endpoints →
  dom (_catch_all (self w)) ⊆ list_to_set info_endpoints →
  info_requests w =
    map (λ e, mkRequest GET (URL_join (uri (self w)) (URL_parse e)) PNone (session_of w))
        [PUCK; DEVICE_INFO; SETTINGS; PIR_CONFIGURATION; THERMOSTAT_CONFIGURATION;
         INPUT_CONFIGURATION; BUTTON_ACTIONS]
  ∧ wire (snd (get_info w)) =
      wire w ++ take (S (length (info_replies w))) (info_requests w)
  ∧ (∀ i rq b, info_requests w !! i = Some rq → info_replies w !! i = Some b →
               respond (wire w ++ take i (info_requests w)) rq = Replied b)
  ∧ (fst (get_info w) = Ok tt ↔ length (info_replies w) = 7)
  ∧ (fst (get_info w) ≠ Ok tt →
       fst (get_info w) = Raise DingzError
       ∧ length (info_replies w) < 7
       ∧ length (wire (snd (get_info w)))
         = length (wire w) + S (length (info_replies w))
       ∧ ∃ rq, info_requests w !! length (info_replies w) = Some rq
               ∧ respond (wire w ++ take (length (info_replies w)) (info_requests w)) rq
                 = Failed)
  ∧ (fst (get_info w) = Ok tt →
       wire (snd (get_info w)) = wire w ++ info_requests w
       ∧ length (info_requests w) = 7
       ∧ length (wire (snd (get_info w))) = length (wire w) + 7
       ∧ dom (_catch_all (self (snd (get_info w)))) = list_to_set info_endpoints
       ∧ size (_catch_all (self (snd (get_info w)))) = 7
       ∧ (∀ i e, info_endpoints !! i = Some e →
                 _catch_all (self (snd (get_info w))) !! e = info_replies w !! i)
       ∧ (fst (get_info (snd (get_info w))) = Ok tt →
            size (_catch_all (self (snd (get_info (snd (get_info w)))))) = 7
            ∧ ∀ i e, info_endpoints !! i = Some e →
                     _catch_all (self (snd (get_info (snd (get_info w))))) !! e
                     = info_replies (snd (get_info w)) !! i)).
Proof.
  intros Hnd Hdom.
  assert (Hcall : ∀ w0, dom (_catch_all (self w0)) ⊆ list_to_set info_endpoints →
            fst (get_info w0) = Ok tt →
            wire (snd (get_info w0)) = wire w0 ++ info_requests w0
            ∧ dom (_catch_all (self (snd (get_info w0)))) = list_to_set info_endpoints
            ∧ size (_catch_all (self (snd (get_info w0)))) = 7
            ∧ (∀ i e, info_endpoints !! i = Some e →
                 _catch_all (self (snd (get_info w0))) !! e = info_replies w0 !! i)).
  { intros w0 Hdom0 Hok. rewrite get_info_result in Hok.
    case_bool_decide as Hlen; [|discriminate Hok].
    assert (Hd : dom (_catch_all (self (snd (get_info w0)))) = list_to_set info_endpoints).
    { rewrite get_info_catch_all, store_dom, Hlen.
      rewrite (take_ge info_endpoints 7) by (rewrite info_endpoints_length; lia).
      set_solver. }
    split.
    { rewrite get_info_wire, Hlen. rewrite take_ge; [reflexivity|].
      rewrite info_requests_length. lia. }
    split; [exact Hd|]. split.
    { rewrite <- size_dom, Hd, size_list_to_set by exact Hnd. reflexivity. }
    intros i e He. rewrite get_info_catch_all.
    apply store_lookup_in; [exact Hnd|exact He|].
    rewrite Hlen. apply lookup_lt_Some in He. exact He. }
  split; [reflexivity|].
  split; [apply get_info_wire|].
  split; [intros i rq b; apply replies_lookup|].
  split.
  { rewrite get_info_result. case_bool_decide; split; congruence. }
  split.
  { intros Hraise. rewrite get_info_result in *.
    case_bool_decide as Hlen; [contradiction|].
    assert (Hlt : length (info_replies w) < 7).
    { pose proof (replies_length (wire w) (info_requests w)) as Hle.
      rewrite info_requests_length in Hle. unfold info_replies in *. lia. }
    split; [reflexivity|]. split; [exact Hlt|]. split.
    - rewrite get_info_wire, length_app, length_take, info_requests_length. lia.
    - apply replies_stop. rewrite info_requests_length. exact Hlt. }
  intros Hok. destruct (Hcall w Hdom Hok) as (Hw & Hd & Hs & Hk).
  split; [exact Hw|]. split; [apply info_requests_length|].
  split; [rewrite Hw, length_app, info_requests_length; reflexivity|].
  split; [exact Hd|]. split; [exact Hs|]. split; [exact Hk|].
  intros Hok2.
  destruct (Hcall (snd (get_info w))) as (_ & _ & Hs2 & Hk2);
    [rewrite Hd; reflexivity|exact Hok2|].
  split; [exact Hs2|exact Hk2].
Qed.

(** C4 as the code has it.  A call that makes one request and has it fail
    raises [DingzError] and leaves every cached field as it was.  A
    [get_info] in which a request fails raises [DingzError] and leaves the
    five single-valued fields as they were; in [everything] the keys of the
    requests answered before the failure hold the new bodies, the key of
    the failed request and the keys after it are as they were, and nothing
    changes when the first request fails. *)
Theorem failed_refresh_keeps_cache (w : World) :
  (∀ o rq, o ≠ GetInfo → first_request o w = Some rq →
           respond (wire w) rq = Failed →
           fst (exec o w) = Raise DingzError
           ∧ cached (self (snd (exec o w))) = cached (self w))
  ∧ (length (info_replies w) < 7 →
       fst (get_info w) = Raise DingzError
       ∧ (∀ f, read f (self (snd (get_info w))) = read f (self w))
       ∧ _catch_all (self (snd (get_info w))) =
           store (zip info_endpoints (info_replies w)) (_catch_all (self w))
       ∧ (info_replies w = [] → cached (self (snd (get_info w))) = cached (self w))
       ∧ (NoDup info_endpoints →
            ∀ i e, info_endpoints !! i = Some e → length (info_replies w) ≤ i →
                   _catch_all (self (snd (get_info w))) !! e = _catch_all (self w) !! e)).
Proof.
  split.
  - intros o rq Hne Hrq Hfail.
    destruct o; try congruence; try discriminate Hrq;
      cbn [first_request] in Hrq; injection Hrq as <-;
      unfold exec, mbind, M_bind;
      rewrite ?get_device_info_eq, ?get_temperature_eq, ?get_button_action_eq,
              ?get_light_eq, ?enabled_eq, ?turn_on_eq, ?turn_off_eq;
      cbn zeta; rewrite Hfail; cbn [fst snd];
      (split; [reflexivity|apply cached_called]).
  - intros Hlt.
    split; [rewrite get_info_result; case_bool_decide; [lia|reflexivity]|].
    split; [intros f; apply get_info_keeps_field|].
    split; [apply get_info_catch_all|].
    split.
    + intros Hnone. unfold cached.
      pose proof (λ f, get_info_keeps_field f w) as Hf.
      pose proof (Hf FDeviceDetails) as H1. pose proof (Hf FButtonAction) as H2.
      pose proof (Hf FTemperature) as H3. pose proof (Hf FIntensity) as H4.
      pose proof (Hf FHourOfDay) as H5. cbn [read] in H1, H2, H3, H4, H5.
      rewrite H1, H2, H3, H4, H5, get_info_catch_all, Hnone. reflexivity.
    + intros Hnd i e He Hge. rewrite get_info_catch_all.
      apply (store_lookup_beyond _ _ _ i); assumption.
Qed.

End Aggregate.

Section Sessions.
Context `{Constants} `{Device}.

Lemma called_some (w : World) (rq : Request) (sid : nat) :
  _session (self w) = Some sid →
  called w rq = mkWorld (self w) (sessions w) (wire w ++ [rq]) (stdout w).
Proof.
  intros E. unfold called. rewrite (ensure_session_some w sid E). reflexivity.
Qed.

Lemma close_eq (w : World) (sid : nat) :
  _session (self w) = Some sid →
  close w =
  (Ok tt, if _close_session (self w)
          then mkWorld (self w) (alter session_close sid (sessions w)) (wire w) (stdout w)
          else w).
Proof.
  intros E. unfold close. rewrite E. destruct (_close_session (self w)); reflexivity.
Qed.

(** With a session in place, a call keeps the session and the ownership
    flag of the client, and only [close] on an owned session touches the
    store. *)
Lemma exec_session_frame (o : op) (w : World) (sid : nat) :
  _session (self w) = Some sid →
  _session (self (snd (exec o w))) = Some sid
  ∧ _close_session (self (snd (exec o w))) = _close_session (self w)
  ∧ sessions (snd (exec o w)) =
      if is_close o && _close_session (self w)
      then alter session_close sid (sessions w)
      else sessions w.
Proof.
  intros E. rewrite exec_world.
  destruct o;
    rewrite ?get_device_info_eq, ?get_temperature_eq, ?get_button_action_eq,
            ?get_light_eq, ?enabled_eq, ?turn_on_eq, ?turn_off_eq,
            ?(close_eq w sid E);
    cbn zeta;
    repeat match goal with
           | |- context [match respond ?h ?r with _ => _ end] => destruct (respond h r)
           | |- context [match py_getitem ?b ?k with _ => _ end] => destruct (py_getitem b k)
           | |- context [called w ?rq] => rewrite (called_some w rq sid E)
           end;
    cbn [fst snd self sessions with_self printed is_close andb
         _session _close_session set_device_details set_temperature
         set_button_action set_intensity set_hour_of_day];
    try (repeat split; (exact E || reflexivity)).
  - unfold get_info. rewrite get_info_loop_eq. cbn zeta. cbn [snd].
    unfold info_endpoints. cbn [self sessions].
    rewrite (ensure_session_some w sid E). cbn [snd _session _close_session set_catch_all].
    repeat split; (exact E || reflexivity).
  - destruct (_close_session (self w)) eqn:Hc; cbn [self sessions]; repeat split;
      (exact E || exact Hc || reflexivity).
  - destruct (_close_session (self w)) eqn:Hc; cbn [self sessions]; repeat split;
      (exact E || exact Hc || reflexivity).
Qed.

Lemma session_close_twice (s : ClientSession) :
  session_close (session_close s) = session_close s.
Proof. unfold session_close. destruct s as [[] r]; reflexivity. Qed.

Lemma run_external (ops : list op) (w : World) (sid : nat) :
  _session (self w) = Some sid → _close_session (self w) = false →
  sessions (run ops w) = sessions w.
Proof.
  revert w. induction ops as [|o ops IH]; intros w E Hext; [reflexivity|].
  destruct (exec_session_frame o w sid E) as (E' & Hflag & Hstore).
  cbn [run]. rewrite IH; [|exact E'|congruence].
  rewrite Hstore, Hext, andb_false_r. reflexivity.
Qed.

Lemma run_owned (ops : list op) (w : World) (sid : nat) (s : ClientSession) :
  _session (self w) = Some sid → _close_session (self w) = true →
  sessions w !! sid = Some s →
  sessions (run ops w) !! sid = Some (if existsb is_close ops then session_close s else s)
  ∧ ∀ j, j ≠ sid → sessions (run ops w) !! j = sessions w !! j.
Proof.
  revert w s. induction ops as [|o ops IH]; intros w s E Hown Hs;
    [split; [exact Hs|reflexivity]|].
  destruct (exec_session_frame o w sid E) as (E' & Hflag & Hstore).
  rewrite Hown, andb_true_r in Hstore. rewrite Hown in Hflag.
  cbn [run existsb].
  destruct (IH (snd (exec o w)) (if is_close o then session_close s else s) E' Hflag)
    as [Hsid Hother].
  { rewrite Hstore. destruct (is_close o); [|exact Hs].
    rewrite list_lookup_alter_eq, Hs. reflexivity. }
  split.
  - rewrite Hsid. destruct (is_close o), (existsb is_close ops);
      rewrite ?session_close_twice; reflexivity.
  - intros j Hj. rewrite (Hother j Hj), Hstore.
    destruct (is_close o); [|reflexivity].
    apply list_lookup_alter_ne. congruence.
Qed.

Lemma exec_creates_session (o : op) (w : World) :
  _session (self w) = None → first_request o w ≠ None →
  _session (self (snd (exec o w))) = Some (length (sessions w))
  ∧ _close_session (self (snd (exec o w))) = true
  ∧ sessions (snd (exec o w)) = sessions w ++ [new_session].
Proof.
  intros E Hrq. rewrite exec_world.
  destruct o; try (exfalso; apply Hrq; reflexivity);
    rewrite ?get_device_info_eq, ?get_temperature_eq, ?get_button_action_eq,
            ?get_light_eq, ?enabled_eq, ?turn_on_eq, ?turn_off_eq;
    cbn zeta;
    repeat match goal with
           | |- context [match respond ?h ?r with _ => _ end] => destruct (respond h r)
           | |- context [match py_getitem ?b ?k with _ => _ end] => destruct (py_getitem b k)
           end;
    try (unfold called, ensure_session; rewrite E; repeat split; reflexivity).
  unfold get_info. rewrite get_info_loop_eq. cbn zeta. unfold info_endpoints.
  unfold ensure_session. rewrite E. repeat split; reflexivity.
Qed.

(** C5. [close] on a client that was given its session never touches the
    session store, whatever calls are made; a client without a session
    creates one at its first request and owns it; and [close] on an owned
    session releases it at the first call and not again, so that after any
    number of [close] calls an open session has been released exactly
    once. *)
Theorem close_releases_only_owned_session (host : string)
    (ss : list ClientSession) (sid : nat) (ops : list op) (w : World)
    (s : ClientSession) :
  sessions (run ops (world_init host (Some sid) ss)) = ss
  ∧ sessions (snd (close (world_init host None ss))) = ss
  ∧ (∀ o, first_request o (world_init host None ss) ≠ None →
       _session (self (snd (exec o (world_init host None ss)))) = Some (length ss)
       ∧ _close_session (self (snd (exec o (world_init host None ss)))) = true
       ∧ sessions (snd (exec o (world_init host None ss))) = ss ++ [new_session])
  ∧ (_session (self w) = Some sid → _close_session (self w) = true →
     sessions w !! sid = Some s →
       sessions (run ops w) !! sid =
         Some (if existsb is_close ops then session_close s else s)
       ∧ (∀ j, j ≠ sid → sessions (run ops w) !! j = sessions w !! j)
       ∧ (∀ n, sessions (run (replicate (S n) Close) w) !! sid = Some (session_close s))
       ∧ (closed s = false →
            ∀ n, sessions (run (replicate (S n) Close) w) !! sid
                 = Some (mkSession true (S (releases s))))).
Proof.
  split; [exact (run_external ops (world_init host (Some sid) ss) sid eq_refl eq_refl)|].
  split; [reflexivity|].
  split; [intros o Hrq;
          exact (exec_creates_session o (world_init host None ss) eq_refl Hrq)|].
  intros E Hown Hs.
  destruct (run_owned ops w sid s E Hown Hs) as [Hsid Hother].
  split; [exact Hsid|]. split; [exact Hother|].
  assert (Hn : ∀ n, sessions (run (replicate (S n) Close) w) !! sid
                    = Some (session_close s)).
  { intros n. destruct (run_owned (replicate (S n) Close) w sid s E Hown Hs) as [Hc _].
    exact Hc. }
  split; [exact Hn|].
  intros Hopen n. rewrite Hn. unfold session_close. rewrite Hopen. reflexivity.
Qed.

End Sessions.

Section Urls.
Context `{Constants} `{Device}.

Lemma uri_ensure (w : World) : uri (self (snd (ensure_session w))) = uri (self w).
Proof. unfold ensure_session. destruct (_session (self w)); reflexivity. Qed.

Lemma exec_keeps_uri (o : op) (w : World) :
  uri (self (snd (exec o w))) = uri (self w).
Proof.
  rewrite exec_world.
  destruct o;
    rewrite ?get_device_info_eq, ?get_temperature_eq, ?get_button_action_eq,
            ?get_light_eq, ?enabled_eq, ?turn_on_eq, ?turn_off_eq,
            ?get_info_self, ?close_self;
    cbn zeta; try reflexivity;
    repeat match goal with
           | |- context [match respond ?h ?r with _ => _ end] => destruct (respond h r)
           | |- context [match py_getitem ?b ?k with _ => _ end] => destruct (py_getitem b k)
           end;
    cbn [fst snd self with_self printed uri set_device_details set_temperature
         set_button_action set_intensity set_hour_of_day set_catch_all];
    first [apply uri_called | apply uri_ensure].
Qed.

Lemma run_keeps_uri (ops : list op) (w : World) :
  uri (self (run ops w)) = uri (self w).
Proof.
  revert w. induction ops as [|o ops IH]; intros w; [reflexivity|].
  cbn [run]. rewrite IH. apply exec_keeps_uri.
Qed.

Lemma info_endpoints_known (e : string) : e ∈ info_endpoints → e ∈ all_endpoints.
Proof. unfold info_endpoints, all_endpoints. set_solver. Qed.

(** The requests a call adds to the wire go to joined URLs. *)
Lemma exec_requests_joined (o : op) (w : World) (rq : Request) :
  rq ∈ wire (snd (exec o w)) →
  rq ∈ wire w
  ∨ ∃ e, e ∈ all_endpoints ∧ rq_uri rq = URL_join (uri (self w)) (URL_parse e).
Proof.
  rewrite exec_world.
  destruct o;
    rewrite ?get_device_info_eq, ?get_temperature_eq, ?get_button_action_eq,
            ?get_light_eq, ?enabled_eq, ?turn_on_eq, ?turn_off_eq;
    cbn zeta;
    repeat match goal with
           | |- context [match respond ?h ?r with _ => _ end] => destruct (respond h r)
           | |- context [match py_getitem ?b ?k with _ => _ end] => destruct (py_getitem b k)
           end;
    cbn [fst snd wire with_self printed called];
    try (rewrite elem_of_app, list_elem_of_singleton; intros [Hold| ->];
         [left; exact Hold|right; eexists; split; [|reflexivity];
          unfold all_endpoints; set_solver]).
  - rewrite get_info_wire, elem_of_app. intros [Hold|Hnew]; [left; exact Hold|right].
    apply (subseteq_take _ (info_requests w)) in Hnew.
    unfold info_requests, requests_for in Hnew.
    apply list_elem_of_fmap in Hnew as (e & -> & He).
    exists e. split; [apply info_endpoints_known; exact He|reflexivity].
  - unfold close. destruct (_session (self w)); [|left; assumption].
    destruct (_close_session (self w)); left; assumption.
  - left; assumption.
  - unfold close. destruct (_session (self w)); [|left; assumption].
    destruct (_close_session (self w)); left; assumption.
Qed.

End Urls.

(** The examples of RFC 3986, 5.4, for the base [http://a/b/c/d;p?q]. *)
Example URL_join_rfc3986 :
  map (λ r, URL_str (URL_join (URL_parse "http://a/b/c/d;p?q") (URL_parse r)))
      ["g:h"; "g"; "./g"; "g/"; "/g"; "//g"; "?y"; "g?y"; "#s"; "g#s"; "g?y#s";
       ";x"; "g;x"; "g;x?y#s"; EmptyString; "."; "./"; ".."; "../"; "../g"; "../..";
       "../../"; "../../g"; "../../../g"; "../../../../g"; "/./g"; "/../g";
       "g."; ".g"; "g.."; "..g"; "./../g"; "./g/."; "g/./h"; "g/../h";
       "g;x=1/./y"; "g;x=1/../y"; "g?y/./x"; "g#s/../x"]
  = ["g:h"; "http://a/b/c/g"; "http://a/b/c/g"; "http://a/b/c/g/"; "http://a/g";
     "http://g"; "http://a/b/c/d;p?y"; "http://a/b/c/g?y"; "http://a/b/c/d;p?q#s";
     "http://a/b/c/g#s"; "http://a/b/c/g?y#s"; "http://a/b/c/;x"; "http://a/b/c/g;x";
     "http://a/b/c/g;x?y#s"; "http://a/b/c/d;p?q"; "http://a/b/c/"; "http://a/b/c/";
     "http://a/b/"; "http://a/b/"; "http://a/b/g"; "http://a/"; "http://a/";
     "http://a/g"; "http://a/g"; "http://a/g"; "http://a/g"; "http://a/g";
     "http://a/b/c/g."; "http://a/b/c/.g"; "http://a/b/c/g.."; "http://a/b/c/..g";
     "http://a/b/g"; "http://a/b/c/g/"; "http://a/b/c/g/h"; "http://a/b/c/h";
     "http://a/b/c/g;x=1/y"; "http://a/b/c/y"; "http://a/b/c/g?y/./x";
     "http://a/b/c/g#s/../x"].
Proof. vm_compute. reflexivity. Qed.

(** [round(x, 1)] on doubles, as CPython computes it. *)
Example float_round1_samples :
  map float_round1 [21.37; 123.456; 0.35; 0.25; 0.75; 0.15; 0.45; 1.05; 2.675; 1e16]%float
  = [21.4; 123.5; 0.3; 0.2; 0.8; 0.1; 0.5; 1.1; 2.7; 1e16]%float.
Proof. vm_compute. reflexivity. Qed.

(** * The properties on the sample configuration *)

Lemma get_temperature_rounds_on_read_witness :
  let w := @world_init sample_constants "1.2.3.4" None [] in
  let w' := snd (@get_temperature sample_constants sensor_device w) in
  _temperature (self w') = PFloat 21.37 ∧ temperature (self w') = Ok (PFloat 21.4).
Proof.
  intros w w'.
  destruct (@get_temperature_rounds_on_read sample_constants sensor_device w
              (PDict {[ "temperature" := PFloat 21.37 ]}) (PFloat 21.37))
    as (_ & Hstored & _ & _ & Hread).
  - vm_compute. reflexivity.
  - vm_compute. reflexivity.
  - split; [exact Hstored | exact (Hread eq_refl)].
Defined.

Lemma get_light_caches_intensity_and_state_witness :
  let w := @world_init sample_constants "1.2.3.4" None [] in
  let w' := snd (@get_light sample_constants sensor_device w) in
  intensity (self w') = Ok (PFloat 123.5) ∧ night (self w') = true ∧ day (self w') = false.
Proof.
  intros w w'.
  destruct (@get_light_caches_intensity_and_state sample_constants sensor_device w
              (PDict (<[ "intensity" := PFloat 123.456 ]> {[ "state" := PStr "night" ]}))
              (PFloat 123.456) (PStr "night"))
    as (_ & _ & _ & _ & _ & _ & Hread).
  - vm_compute. reflexivity.
  - vm_compute. reflexivity.
  - vm_compute. reflexivity.
  - exact (Hread eq_refl eq_refl).
Defined.

Lemma sample_endpoints_distinct : NoDup (@info_endpoints sample_constants).
Proof. apply (bool_decide_unpack _). vm_compute. exact I. Defined.

Lemma get_info_requests_and_keys_witness :
  let w := @world_init sample_constants "1.2.3.4" None [] in
  let w1 := snd (@get_info sample_constants counting_device w) in
  let w2 := snd (@get_info sample_constants counting_device w1) in
  let w' := snd (@get_info sample_constants six_device w) in
  fst (@get_info sample_constants counting_device w) = Ok tt
  ∧ length (wire w1) = 7
  ∧ size (_catch_all (self w1)) = 7
  ∧ _catch_all (self w1) !! "puck" = Some (PDict {[ "seen" := PInt 0 ]})
  ∧ size (_catch_all (self w2)) = 7
  ∧ _catch_all (self w2) !! "puck" = Some (PDict {[ "seen" := PInt 7 ]})
  ∧ fst (@get_info sample_constants six_device w) = Raise DingzError
  ∧ length (wire w') = 7.
Proof.
  intros w w1 w2 w'.
  assert (Hempty : dom (_catch_all (self w))
                   ⊆ list_to_set (@info_endpoints sample_constants)).
  { unfold w, world_init, __init__. cbn [self _catch_all].
    rewrite dom_empty_L. apply empty_subseteq. }
  destruct (@get_info_requests_and_keys sample_constants counting_device w
              sample_endpoints_distinct Hempty)
    as (_ & _ & _ & Hok & _ & Hall).
  destruct (@get_info_requests_and_keys sample_constants six_device w
              sample_endpoints_distinct Hempty)
    as (_ & _ & _ & _ & Hfail & _).
  assert (Hret : fst (@get_info sample_constants counting_device w) = Ok tt)
    by (apply Hok; vm_compute; reflexivity).
  destruct (Hall Hret) as (Hwire & Hseven & _ & _ & Hsize & Hkeys & Hagain).
  destruct Hagain as [Hsize2 Hkeys2]; [vm_compute; reflexivity|].
  destruct Hfail as (Hraise & _ & Hcount & _); [vm_compute; discriminate|].
  split; [exact Hret|].
  split; [unfold w1; rewrite Hwire; exact Hseven|].
  split; [exact Hsize|].
  split; [exact (Hkeys 0 "puck" eq_refl)|].
  split; [exact Hsize2|].
  split; [exact (Hkeys2 0 "puck" eq_refl)|].
  split; [exact Hraise|exact Hcount].
Defined.

Lemma failed_refresh_keeps_cache_witness :
  let w := @world_init sample_constants "1.2.3.4" None [] in
  fst (@exec sample_constants dead_device GetTemperature w) = Raise DingzError
  ∧ cached (self (snd (@exec sample_constants dead_device GetTemperature w)))
    = cached (self w).
Proof.
  intros w.
  destruct (@failed_refresh_keeps_cache sample_constants dead_device w) as [Hone _].
  apply (Hone GetTemperature
              (@request_of w GET (@TEMPERATURE sample_constants) PNone)).
  - discriminate.
  - reflexivity.
  - reflexivity.
Defined.

Lemma close_releases_only_owned_session_witness :
  let w := snd (@exec sample_constants dead_device TurnOn
                  (@world_init sample_constants "1.2.3.4" None [])) in
  sessions w = [mkSession false 0]
  ∧ sessions (@run sample_constants dead_device [Close; GetTemperature; Close; AExit] w)
      !! 0 = Some (mkSession true 1).
Proof.
  intros w. split; [reflexivity|].
  destruct (@close_releases_only_owned_session sample_constants dead_device
              "1.2.3.4" [] 0 [Close; GetTemperature; Close; AExit] w new_session)
    as (_ & _ & _ & Howned).
  destruct Howned as (Hrun & _); [reflexivity|reflexivity|reflexivity|].
  exact Hrun.
Defined.

Lemma front_led_calls_keep_cache_witness :
  fst (@enabled sample_constants sensor_device
         (@world_init sample_constants "1.2.3.4" None [])) = Ok true.
Proof.
  destruct (@front_led_calls_keep_cache sample_constants sensor_device
              (@world_init sample_constants "1.2.3.4" None []))
    as (_ & _ & _ & Hon).
  apply (Hon (PDict {[ "on" := PBool true ]}) (PBool true)).
  - vm_compute. reflexivity.
  - vm_compute. reflexivity.
Defined.

(** ** Where the code departs from the claims *)

(** C3 as stated fails: with a device that is not there, [get_info] sends
    one request, not seven. *)
Lemma get_info_stops_at_first_failure :
  let w := @world_init sample_constants "1.2.3.4" None [] in
  fst (@get_info sample_constants dead_device w) = Raise DingzError
  ∧ length (wire (snd (@get_info sample_constants dead_device w))) = 1
  ∧ length (wire (snd (@get_info sample_constants dead_device w))) ≠ 7.
Proof. vm_compute. repeat split. discriminate. Qed.

(** C4 as stated fails: a [get_info] whose second request fails has
    already overwritten the cached value of the first key. *)
Lemma failed_get_info_overwrites_cache :
  let w0 := @world_init sample_constants "1.2.3.4" None [] in
  let w1 := snd (@get_info sample_constants fading_device w0) in
  let w2 := snd (@get_info sample_constants fading_device w1) in
  fst (@get_info sample_constants fading_device w0) = Ok tt
  ∧ fst (@get_info sample_constants fading_device w1) = Raise DingzError
  ∧ _catch_all (self w1) !! "puck" = Some (PDict {[ "seen" := PInt 0 ]})
  ∧ _catch_all (self w2) !! "puck" = Some (PDict {[ "seen" := PInt 7 ]})
  ∧ cached (self w2) ≠ cached (self w1).
Proof.
  intros w0 w1 w2.
  split; [vm_compute; reflexivity|].
  split; [vm_compute; reflexivity|].
  split; [vm_compute; reflexivity|].
  split; [vm_compute; reflexivity|].
  intros Heq.
  apply (f_equal (λ c, match c.1.1.1.1.2 !! "puck" with
                       | Some (PDict d) =>
                           match d !! "seen" with Some (PInt z) => z | _ => 0%Z end
                       | _ => 0%Z
                       end)) in Heq.
  vm_compute in Heq. discriminate Heq.
Qed.


(** * Further properties of the methods *)

Section Errors.
Context `{Constants} `{Device}.

Lemma py_getitem_raises (obj : pyval) (key : string) (e : exn) :
  py_getitem obj key = Raise e → e = KeyError key ∨ e = TypeError.
Proof.
  destruct obj; cbn; try (intros [= <-]; right; reflexivity).
  destruct (d !! key); [discriminate|]. intros [= <-]. left. reflexivity.
Qed.

Lemma exec_result (o : op) (w : World) :
  fst (exec o w) =
  match o with
  | GetDeviceInfo =>
      match respond (wire w) (request_of w GET DEVICE_INFO PNone) with
      | Failed => Raise DingzError
      | Replied _ => Ok PNone
      end
  | GetInfo =>
      if bool_decide (length (info_replies w) = 7) then Ok PNone else Raise DingzError
  | GetTemperature =>
      match respond (wire w) (request_of w GET TEMPERATURE PNone) with
      | Failed => Raise DingzError
      | Replied body =>
          match py_getitem body "temperature" with
          | Ok _ => Ok PNone
          | Raise e => Raise e
          end
      end
  | GetButtonAction =>
      match respond (wire w) (request_of w GET BUTTON_ACTIONS PNone) with
      | Failed => Raise DingzError
      | Replied _ => Ok PNone
      end
  | GetLight =>
      match respond (wire w) (request_of w GET LIGHT PNone) with
      | Failed => Raise DingzError
      | Replied body =>
          match py_getitem body "intensity" with
          | Raise e => Raise e
          | Ok _ =>
              match py_getitem body "state" with
              | Raise e => Raise e
              | Ok _ => Ok PNone
              end
          end
      end
  | Enabled =>
      match respond (wire w) (request_of w GET FRONT_LED_GET PNone) with
      | Failed => Raise DingzError
      | Replied body =>
          match py_getitem body "on" with
          | Ok on => Ok (PBool (py_bool on))
          | Raise e => Raise e
          end
      end
  | TurnOn =>
      match respond (wire w)
              (request_of w POST FRONT_LED_SET (PDict {[ "action" := PStr "on" ]})) with
      | Failed => Raise DingzError
      | Replied _ => Ok PNone
      end
  | TurnOff =>
      match respond (wire w)
              (request_of w POST FRONT_LED_SET (PDict {[ "action" := PStr "off" ]})) with
      | Failed => Raise DingzError
      | Replied _ => Ok PNone
      end
  | Close | AEnter | AExit => Ok PNone
  end.
Proof.
  destruct o; unfold exec, mbind, M_bind;
    rewrite ?get_device_info_eq, ?get_temperature_eq, ?get_button_action_eq,
            ?get_light_eq, ?enabled_eq, ?turn_on_eq, ?turn_off_eq;
    cbn zeta;
    repeat match goal with
           | |- context [match respond ?h ?r with _ => _ end] => destruct (respond h r)
           | |- context [match py_getitem ?b ?k with _ => _ end] => destruct (py_getitem b k)
           end;
    try reflexivity.
  - pose proof (get_info_result w) as Hr. destruct (get_info w) as [r w'].
    cbn [fst] in Hr. subst r. case_bool_decide; reflexivity.
  - unfold close. destruct (_session (self w)); [|reflexivity].
    destruct (_close_session (self w)); reflexivity.
  - unfold __aexit__, close. destruct (_session (self w)); [|reflexivity].
    destruct (_close_session (self w)); reflexivity.
Qed.

(** X1. [close], [__aenter__] and [__aexit__] never raise.  The calls that
    pass the body on whole ([get_device_info], [get_button_action],
    [get_info], [turn_on], [turn_off]) raise nothing but [DingzError], and
    the single-request ones among them return as soon as the device
    answers, whatever the body.  The calls that take a field out of the body
    raise [DingzError], [TypeError] on a body that is no mapping, or
    [KeyError] with the name of the missing field. *)
Theorem exec_raises_only (o : op) (w : World) :
  (∀ e, fst (exec o w) = Raise e →
     is_close o = false ∧ o ≠ AEnter
     ∧ (e = DingzError
        ∨ (o = GetTemperature ∧ (e = KeyError "temperature" ∨ e = TypeError))
        ∨ (o = GetLight
           ∧ (e = KeyError "intensity" ∨ e = KeyError "state" ∨ e = TypeError))
        ∨ (o = Enabled ∧ (e = KeyError "on" ∨ e = TypeError))))
  ∧ (o ∈ [GetDeviceInfo; GetButtonAction; TurnOn; TurnOff] →
     first_answered o w = true → fst (exec o w) = Ok PNone)
  ∧ (is_close o = true ∨ o = AEnter → fst (exec o w) = Ok PNone).
Proof.
  rewrite exec_result. split; [|split].
  - intros e Hraise.
    destruct o; try discriminate Hraise;
      (split; [reflexivity|]); (split; [discriminate|]);
      repeat match type of Hraise with
             | context [match respond ?h ?r with _ => _ end] => destruct (respond h r)
             | context [bool_decide ?P] => destruct (bool_decide P)
             | context [match py_getitem ?b ?k with _ => _ end] =>
                 let E := fresh "E" in destruct (py_getitem b k) eqn:E
             end;
      try discriminate Hraise; injection Hraise as <-;
      try (left; reflexivity);
      repeat match goal with
             | E : py_getitem _ _ = Raise _ |- _ =>
                 apply py_getitem_raises in E; destruct E as [-> | ->]
             end;
      right; tauto.
  - intros Hin Hans. unfold first_answered, first_request in Hans.
    destruct o; try (exfalso; set_solver);
      destruct (respond _ _); (reflexivity || discriminate Hans).
  - intros [Hc | ->]; [|reflexivity]. destruct o; (reflexivity || discriminate Hc).
Qed.

(** X2. A [get_light] whose body holds [intensity] but lacks [state]
    raises [KeyError] for [state] after it has stored the intensity: the
    intensity is new, the day/night token is the old one, and the other
    cached fields are untouched. *)
Theorem get_light_without_state (w : World) (d : gmap string pyval) (i : pyval) :
  respond (wire w) (request_of w GET LIGHT PNone) = Replied (PDict d) →
  d !! "intensity" = Some i →
  d !! "state" = None →
  fst (get_light w) = Raise (KeyError "state")
  ∧ _intensity (self (snd (get_light w))) = i
  ∧ _hour_of_day (self (snd (get_light w))) = _hour_of_day (self w)
  ∧ night (self (snd (get_light w))) = night (self w)
  ∧ day (self (snd (get_light w))) = day (self w)
  ∧ (∀ f, f ≠ FIntensity →
          read f (self (snd (get_light w))) = read f (self w))
  ∧ _catch_all (self (snd (get_light w))) = _catch_all (self w).
Proof.
  intros Hreply Hi Hs. rewrite get_light_eq. cbn zeta. rewrite Hreply.
  cbn [py_getitem]. rewrite Hi, Hs. cbn [fst snd self with_self printed called].
  pose proof (cached_called w (request_of w GET LIGHT PNone)) as Hc.
  unfold cached in Hc. injection Hc as Hdd Hca Hba Ht Hin Hh.
  unfold night, day. cbn [_intensity _hour_of_day _catch_all set_intensity].
  rewrite Hh, Hca. repeat split.
  intros f Hf. destruct f; cbn; congruence.
Qed.

(** X3. A call that finds its field missing leaves the cache alone:
    [get_temperature] on a body without [temperature], [get_light] on a
    body without [intensity] and [enabled] on a body without [on] raise
    [KeyError] for that field, [TypeError] when the body is no mapping, and
    every cached field is as before, although the request was made. *)
Theorem missing_field_keeps_cache (o : op) (key : string) (w : World)
    (rq : Request) (body : pyval) :
  (o, key) ∈ [(GetTemperature, "temperature"); (GetLight, "intensity"); (Enabled, "on")] →
  first_request o w = Some rq →
  respond (wire w) rq = Replied body →
  (∀ d, body = PDict d → d !! key = None) →
  fst (exec o w) = Raise (match body with PDict _ => KeyError key | _ => TypeError end)
  ∧ cached (self (snd (exec o w))) = cached (self w)
  ∧ wire (snd (exec o w)) = wire w ++ [rq].
Proof.
  intros Hin Hrq Hreply Hmiss.
  assert (Hget : py_getitem body key =
                 Raise (match body with PDict _ => KeyError key | _ => TypeError end)).
  { destruct body; try reflexivity. cbn. rewrite (Hmiss d eq_refl). reflexivity. }
  rewrite exec_result, exec_world.
  repeat (apply elem_of_cons in Hin as [Hin|Hin]); try (apply elem_of_nil in Hin; contradiction);
    injection Hin as -> ->; cbn [first_request] in Hrq; injection Hrq as <-;
    rewrite ?get_temperature_eq, ?get_light_eq, ?enabled_eq; cbn zeta;
    rewrite Hreply, Hget; cbn [fst snd self printed wire];
    (split; [reflexivity|split; [apply cached_called|reflexivity]]).
Qed.

End Errors.

(** X4. [day] and [night] are never both true; each is true exactly when
    the cached token is that very string, and both are false on a new
    client. *)
Theorem day_night_exclusive (d : Dingz) :
  (day d = true ↔ _hour_of_day d = PStr "day")
  ∧ (night d = true ↔ _hour_of_day d = PStr "night")
  ∧ day d && night d = false
  ∧ (∀ (C : Constants) host session,
       day (__init__ host session) = false ∧ night (__init__ host session) = false).
Proof.
  unfold day, night, py_eq_str.
  destruct (_hour_of_day d) as [| | | |s| |]; cbn;
    try (repeat split; (discriminate || reflexivity)).
  destruct (String.eqb_spec s "day") as [-> | Hd]; cbn.
  - repeat split; reflexivity || discriminate.
  - destruct (String.eqb_spec s "night") as [-> | Hn].
    + repeat split; try reflexivity; try discriminate.
    + repeat split; try reflexivity; try discriminate; intros [= ->]; contradiction.
Qed.

Section Output.
Context `{Constants} `{Device}.

(** X5. Only [get_light] writes to standard output: it prints the body as
    soon as its request is answered, even when a field is missing, and
    prints nothing when the request fails. *)
Theorem only_get_light_prints (o : op) (w : World) :
  (o ≠ GetLight → stdout (snd (exec o w)) = stdout w)
  ∧ (respond (wire w) (request_of w GET LIGHT PNone) = Failed →
       stdout (snd (get_light w)) = stdout w)
  ∧ (∀ body, respond (wire w) (request_of w GET LIGHT PNone) = Replied body →
       stdout (snd (get_light w)) = stdout w ++ [body]).
Proof.
  split; [|split].
  - intros Hne. rewrite exec_world.
    destruct o; try contradiction;
      rewrite ?get_device_info_eq, ?get_temperature_eq, ?get_button_action_eq,
              ?enabled_eq, ?turn_on_eq, ?turn_off_eq;
      cbn zeta;
      repeat match goal with
             | |- context [match respond ?h ?r with _ => _ end] => destruct (respond h r)
             | |- context [match py_getitem ?b ?k with _ => _ end] => destruct (py_getitem b k)
             end;
      try reflexivity.
    + unfold get_info. rewrite get_info_loop_eq. reflexivity.
    + unfold close. destruct (_session (self w)); [|reflexivity].
      destruct (_close_session (self w)); reflexivity.
    + unfold close. destruct (_session (self w)); [|reflexivity].
      destruct (_close_session (self w)); reflexivity.
  - intros Hfail. rewrite get_light_eq. cbn zeta. rewrite Hfail. reflexivity.
  - intros body Hreply. rewrite get_light_eq. cbn zeta. rewrite Hreply.
    destruct (py_getitem body "intensity"); [|reflexivity].
    destruct (py_getitem body "state"); reflexivity.
Qed.

End Output.

Section Wire.
Context `{Constants} `{Device}.

(** What a call adds to the wire. *)
Lemma exec_wire (o : op) (w : World) :
  wire (snd (exec o w)) =
  wire w ++ match o with
            | GetInfo => take (S (length (info_replies w))) (info_requests w)
            | _ => match first_request o w with
                   | Some rq => [rq]
                   | None => []
                   end
            end.
Proof.
  rewrite exec_world.
  destruct o; cbn [first_request];
    rewrite ?get_device_info_eq, ?get_temperature_eq, ?get_button_action_eq,
            ?get_light_eq, ?enabled_eq, ?turn_on_eq, ?turn_off_eq, ?get_info_wire;
    cbn zeta;
    repeat match goal with
           | |- context [match respond ?h ?r with _ => _ end] => destruct (respond h r)
           | |- context [match py_getitem ?b ?k with _ => _ end] => destruct (py_getitem b k)
           end;
    rewrite ?app_nil_r; try reflexivity;
    unfold close; destruct (_session (self w)); try reflexivity;
    destruct (_close_session (self w)); reflexivity.
Qed.

Lemma exec_idle (o : op) (w : World) :
  makes_request o = false → _session (self w) = None → snd (exec o w) = w.
Proof.
  intros Hidle Hnone. rewrite exec_world.
  destruct o; try discriminate Hidle; try reflexivity;
    unfold close; rewrite Hnone; reflexivity.
Qed.

Lemma makes_request_first (o : op) (w : World) :
  makes_request o = true → first_request o w ≠ None.
Proof. destruct o; (discriminate || intros _; discriminate). Qed.

Lemma exec_keeps_session_of (o : op) (w : World) :
  session_of (snd (exec o w)) = session_of w.
Proof.
  unfold session_of at 2. destruct (_session (self w)) as [sid|] eqn:E.
  - destruct (exec_session_frame o w sid E) as (E' & _ & _).
    unfold session_of. rewrite E'. reflexivity.
  - destruct (makes_request o) eqn:Hm.
    + destruct (exec_creates_session o w E (makes_request_first o w Hm)) as (E' & _ & _).
      unfold session_of. rewrite E'. reflexivity.
    + rewrite (exec_idle o w Hm E). unfold session_of. rewrite E. reflexivity.
Qed.

Lemma exec_sessions_length (o : op) (w : World) :
  length (sessions (snd (exec o w))) =
  match _session (self w) with
  | Some _ => length (sessions w)
  | None => if makes_request o then S (length (sessions w)) else length (sessions w)
  end.
Proof.
  destruct (_session (self w)) as [sid|] eqn:E.
  - destruct (exec_session_frame o w sid E) as (_ & _ & ->).
    destruct (is_close o && _close_session (self w)); [apply length_alter|reflexivity].
  - destruct (makes_request o) eqn:Hm.
    + destruct (exec_creates_session o w E (makes_request_first o w Hm)) as (_ & _ & ->).
      rewrite length_app. cbn. lia.
    + rewrite (exec_idle o w Hm E). reflexivity.
Qed.

Lemma exec_session_stays (o : op) (w : World) :
  is_Some (_session (self w)) → is_Some (_session (self (snd (exec o w)))).
Proof.
  intros [sid E]. destruct (exec_session_frame o w sid E) as (E' & _ & _). eauto.
Qed.

Lemma request_of_exec (o : op) (w : World) (m : http_method) (e : string) (data : pyval) :
  request_of (snd (exec o w)) m e data = request_of w m e data.
Proof.
  unfold request_of. rewrite exec_keeps_uri, exec_keeps_session_of. reflexivity.
Qed.

(** The requests of one call. *)
Lemma exec_new_request (o : op) (w : World) (rq : Request) :
  rq ∈ wire (snd (exec o w)) →
  rq ∈ wire w
  ∨ (o ≠ TurnOn ∧ o ≠ TurnOff
     ∧ ∃ e, e ∈ all_endpoints ∧ rq = request_of w GET e PNone)
  ∨ (o = TurnOn
     ∧ rq = request_of w POST FRONT_LED_SET (PDict {[ "action" := PStr "on" ]}))
  ∨ (o = TurnOff
     ∧ rq = request_of w POST FRONT_LED_SET (PDict {[ "action" := PStr "off" ]})).
Proof.
  rewrite exec_wire, elem_of_app. intros [Hold|Hnew]; [left; exact Hold|right].
  destruct o; cbn [first_request] in Hnew;
    try (apply list_elem_of_singleton in Hnew as ->);
    try (apply elem_of_nil in Hnew; contradiction);
    try (left; split; [discriminate|split; [discriminate|]];
         eexists; split; [|reflexivity]; unfold all_endpoints; set_solver);
    try (right; left; split; reflexivity);
    try (right; right; split; reflexivity).
  left. split; [discriminate|split; [discriminate|]].
  apply (subseteq_take _ (info_requests w)) in Hnew.
  unfold info_requests, requests_for in Hnew.
  apply list_elem_of_fmap in Hnew as (e & -> & He).
  exists e. split; [apply info_endpoints_known; exact He|reflexivity].
Qed.

(** X6. Over any sequence of calls the wire only grows, and whatever is
    added is one of a fixed set of requests, all over the one session of
    the client and to the base URI joined with an endpoint: a GET without a
    body, or, only if [turn_on] or [turn_off] was called, a POST to the LED
    endpoint with the action as body. *)
Theorem run_requests (ops : list op) (w : World) :
  wire w `prefix_of` wire (run ops w)
  ∧ ∀ rq, rq ∈ wire (run ops w) →
      rq ∈ wire w
      ∨ (∃ e, e ∈ all_endpoints ∧ rq = request_of w GET e PNone)
      ∨ (TurnOn ∈ ops
         ∧ rq = request_of w POST FRONT_LED_SET (PDict {[ "action" := PStr "on" ]}))
      ∨ (TurnOff ∈ ops
         ∧ rq = request_of w POST FRONT_LED_SET (PDict {[ "action" := PStr "off" ]})).
Proof.
  revert w. induction ops as [|o ops IH]; intros w.
  - split; [reflexivity|]. intros rq Hrq. left. exact Hrq.
  - cbn [run]. destruct (IH (snd (exec o w))) as [Hpre Hall]. split.
    + etransitivity; [|exact Hpre]. rewrite exec_wire. apply prefix_app_r. reflexivity.
    + intros rq Hrq. specialize (Hall rq Hrq). rewrite !request_of_exec in Hall.
      destruct Hall as [Hold|[(e & He & ->)|[[Hin ->]|[Hin ->]]]].
      * apply exec_new_request in Hold
          as [Hold|[(_ & _ & e & He & ->)|[[-> ->]|[-> ->]]]].
        -- left. exact Hold.
        -- right. left. eauto.
        -- right. right. left. split; [left|reflexivity].
        -- right. right. right. split; [left|reflexivity].
      * right. left. exists e. split; [exact He|].
        unfold request_of. rewrite exec_keeps_uri, exec_keeps_session_of. reflexivity.
      * right. right. left. split; [right; exact Hin|reflexivity].
      * right. right. right. split; [right; exact Hin|reflexivity].
Qed.

Lemma one_step_session (ops : list op) (w : World) (sid : nat) :
  _session (self w) = Some sid → _session (self (run ops w)) = Some sid.
Proof.
  revert w. induction ops as [|o ops IH]; intros w E; [exact E|].
  cbn [run]. apply IH. destruct (exec_session_frame o w sid E) as (E' & _ & _).
  exact E'.
Qed.

(** X7. A client creates at most one session: one that has a session
    creates none, one without creates exactly one at its first request,
    also when it was closed in between, and every later request goes over
    that same session. *)
Theorem one_session_per_client (ops : list op) (w : World) :
  session_of (run ops w) = session_of w
  ∧ length (sessions (run ops w)) =
      match _session (self w) with
      | Some _ => length (sessions w)
      | None => if existsb makes_request ops
                then S (length (sessions w)) else length (sessions w)
      end
  ∧ (existsb makes_request ops = true →
       _session (self (run ops w)) = Some (session_of w)).
Proof.
  revert w. induction ops as [|o ops IH]; intros w.
  - split; [reflexivity|]. split; [|discriminate].
    cbn. destruct (_session (self w)); reflexivity.
  - cbn [run existsb]. destruct (IH (snd (exec o w))) as (Hsid & Hlen & Hset).
    rewrite exec_keeps_session_of in Hsid, Hset. split; [exact Hsid|].
    rewrite Hlen, exec_sessions_length.
    destruct (_session (self w)) as [sid|] eqn:E.
    + destruct (exec_session_frame o w sid E) as (E' & _ & _). rewrite E'.
      split; [reflexivity|]. intros _.
      pose proof (one_step_session ops (snd (exec o w)) sid E') as Hk.
      rewrite Hk. unfold session_of. rewrite E. reflexivity.
    + destruct (makes_request o) eqn:Hm; cbn [orb].
      * destruct (exec_creates_session o w E (makes_request_first o w Hm)) as (E' & _ & _).
        rewrite E'. split; [reflexivity|]. intros _.
        rewrite (one_step_session ops (snd (exec o w)) _ E').
        unfold session_of. rewrite E. reflexivity.
      * rewrite (exec_idle o w Hm E), E. split; [reflexivity|].
        rewrite (exec_idle o w Hm E) in Hset. exact Hset.
Qed.

End Wire.

Section Lifetime.
Context `{Constants} `{Device}.

Lemma run_owned_store (ops : list op) (w : World) (sid : nat) :
  _session (self w) = Some sid → _close_session (self w) = true →
  sessions (run ops w) =
  if existsb is_close ops then alter session_close sid (sessions w) else sessions w.
Proof.
  revert w. induction ops as [|o ops IH]; intros w E Hown; [reflexivity|].
  destruct (exec_session_frame o w sid E) as (E' & Hflag & Hstore).
  rewrite Hown, andb_true_r in Hstore. rewrite Hown in Hflag.
  cbn [run existsb]. rewrite (IH _ E' Hflag), Hstore.
  destruct (is_close o), (existsb is_close ops); cbn [orb]; try reflexivity.
  rewrite list_alter_alter_eq. apply list_alter_ext; [|reflexivity].
  intros s _. apply session_close_twice.
Qed.

Lemma existsb_is_close_exit (ops : list op) : existsb is_close (ops ++ [AExit]) = true.
Proof. rewrite existsb_app. cbn. apply orb_true_r. Qed.

Lemma run_scoped (ops : list op) (w : World) :
  _session (self w) = None →
  sessions (run (ops ++ [AExit]) w) =
  if existsb makes_request ops
  then sessions w ++ [mkSession true 1] else sessions w.
Proof.
  revert w. induction ops as [|o ops IH]; intros w E.
  - cbn [app run existsb]. rewrite (exec_idle AExit w eq_refl E). reflexivity.
  - cbn [app run existsb]. destruct (makes_request o) eqn:Hm; cbn [orb].
    + destruct (exec_creates_session o w E (makes_request_first o w Hm))
        as (E' & Hown & Hstore).
      rewrite (run_owned_store _ _ _ E' Hown), existsb_is_close_exit, Hstore.
      rewrite alter_app_r_alt by lia. rewrite Nat.sub_diag. reflexivity.
    + rewrite (exec_idle o w Hm E). apply IH. exact E.
Qed.

(** X8. Used as a context manager, a client that was given no session
    leaves behind exactly the sessions it found, plus, if any call in the
    block went to the device, the one session it created, closed and
    released once; this holds whatever the calls in the block did, also
    when they raised or closed the client themselves. *)
Theorem scoped_use_releases_session (host : string) (ss : list ClientSession)
    (ops : list op) :
  sessions (run (AEnter :: ops ++ [AExit]) (world_init host None ss)) =
  if existsb makes_request ops then ss ++ [mkSession true 1] else ss.
Proof.
  cbn [run].
  rewrite (exec_idle AEnter (world_init host None ss) eq_refl eq_refl).
  exact (run_scoped ops (world_init host None ss) eq_refl).
Qed.

Lemma exec_keeps_fixed (o : op) (w : World) :
  _host (self (snd (exec o w))) = _host (self w)
  ∧ _day (self (snd (exec o w))) = _day (self w)
  ∧ _night (self (snd (exec o w))) = _night (self w).
Proof.
  assert (Hens : _host (self (snd (ensure_session w))) = _host (self w)
                 ∧ _day (self (snd (ensure_session w))) = _day (self w)
                 ∧ _night (self (snd (ensure_session w))) = _night (self w)).
  { unfold ensure_session. destruct (_session (self w)); repeat split. }
  rewrite exec_world.
  destruct o;
    rewrite ?get_device_info_eq, ?get_temperature_eq, ?get_button_action_eq,
            ?get_light_eq, ?enabled_eq, ?turn_on_eq, ?turn_off_eq,
            ?get_info_self, ?close_self;
    cbn zeta; try (repeat split; reflexivity);
    repeat match goal with
           | |- context [match respond ?h ?r with _ => _ end] => destruct (respond h r)
           | |- context [match py_getitem ?b ?k with _ => _ end] => destruct (py_getitem b k)
           end;
    cbn [fst snd self with_self printed called _host _day _night
         set_device_details set_temperature set_button_action set_intensity
         set_hour_of_day set_catch_all];
    exact Hens.
Qed.

(** X9. The host of a client never changes, its base URI stays the one
    built from that host, and the attributes [_day] and [_night] stay
    [None] for good: no call assigns them, the accessors [day] and [night]
    read the token of [get_light] instead. *)
Theorem fixed_attributes (host : string) (session : option nat)
    (ss : list ClientSession) (ops : list op) :
  _host (self (run ops (world_init host session ss))) = host
  ∧ uri (self (run ops (world_init host session ss))) =
      URL_join (URL_build "http" (_host (self (run ops (world_init host session ss)))))
               (URL_parse API)
  ∧ _day (self (run ops (world_init host session ss))) = PNone
  ∧ _night (self (run ops (world_init host session ss))) = PNone.
Proof.
  assert (Hrun : ∀ w, _host (self (run ops w)) = _host (self w)
                      ∧ _day (self (run ops w)) = _day (self w)
                      ∧ _night (self (run ops w)) = _night (self w)).
  { induction ops as [|o ops IH]; intros w; [repeat split|].
    cbn [run]. destruct (IH (snd (exec o w))) as (-> & -> & ->).
    apply exec_keeps_fixed. }
  destruct (Hrun (world_init host session ss)) as (Hh & Hd & Hn).
  rewrite Hh, Hd, Hn, run_keeps_uri. repeat split.
Qed.

(** X10. [everything] never holds a key that is not one of the seven
    endpoint paths of [get_info], so never more than seven keys, whatever
    was called and whatever failed. *)
Theorem everything_keys_bounded (host : string) (session : option nat)
    (ss : list ClientSession) (ops : list op) :
  dom (_catch_all (self (run ops (world_init host session ss))))
    ⊆ list_to_set info_endpoints
  ∧ size (_catch_all (self (run ops (world_init host session ss)))) ≤ 7.
Proof.
  assert (Hstep : ∀ o w, dom (_catch_all (self w)) ⊆ list_to_set info_endpoints →
            dom (_catch_all (self (snd (exec o w)))) ⊆ list_to_set info_endpoints).
  { intros o w Hw. destruct (decide (o = GetInfo)) as [->|Hne].
    - rewrite exec_world, get_info_catch_all, store_dom.
      pose proof (subseteq_take (length (info_replies w)) info_endpoints) as Htake.
      set_solver.
    - rewrite (exec_keeps_catch_all o w (or_introl Hne)). exact Hw. }
  assert (Hrun : ∀ w, dom (_catch_all (self w)) ⊆ list_to_set info_endpoints →
            dom (_catch_all (self (run ops w))) ⊆ list_to_set info_endpoints).
  { induction ops as [|o ops IH]; intros w Hw; [exact Hw|].
    cbn [run]. apply IH, Hstep, Hw. }
  assert (Hdom : dom (_catch_all (self (run ops (world_init host session ss))))
                   ⊆ list_to_set info_endpoints).
  { apply Hrun. cbn. rewrite dom_empty_L. apply empty_subseteq. }
  split; [exact Hdom|].
  rewrite <- size_dom. etransitivity; [apply subseteq_size, Hdom|].
  generalize info_endpoints_length. generalize info_endpoints. intros l <-.
  induction l as [|x l IH]; cbn [list_to_set length].
  - rewrite size_empty. lia.
  - rewrite size_union_alt, size_singleton.
    pose proof (subseteq_size (list_to_set l ∖ {[x]}) (list_to_set l : gset string)
                  ltac:(set_solver)). lia.
Qed.

End Lifetime.

Section Composition.
Context `{Constants} `{Device}.

Lemma store_union (kvs : list (string * pyval)) (m : gmap string pyval) :
  store kvs m = list_to_map (rev kvs) ∪ m.
Proof.
  revert m. induction kvs as [|[k v] kvs IH]; intros m.
  - cbn. rewrite (left_id_L ∅ (∪)). reflexivity.
  - change (store ((k, v) :: kvs) m) with (store kvs (<[k := v]> m)).
    rewrite IH. cbn [rev]. rewrite list_to_map_app. cbn [list_to_map].
    rewrite <- (assoc_L (∪)). f_equal.
    change (list_to_map [(k, v)] : gmap string pyval) with (<[k := v]> (∅ : gmap string pyval)).
    rewrite <- insert_union_l, (left_id_L ∅ (∪)). reflexivity.
Qed.

Lemma store_twice (kvs : list (string * pyval)) (m : gmap string pyval) :
  store kvs (store kvs m) = store kvs m.
Proof.
  rewrite !store_union, (assoc_L (∪)), (idemp_L (∪)). reflexivity.
Qed.

(** The cache after a call, as a function of the cache before. *)
Lemma exec_cached (o : op) (w : World) :
  cached (self (snd (exec o w))) = refreshed o w (cached (self w)).
Proof.
  assert (Hcalled : ∀ rq,
            _device_details (self (called w rq)) = _device_details (self w)
            ∧ _catch_all (self (called w rq)) = _catch_all (self w)
            ∧ _button_action (self (called w rq)) = _button_action (self w)
            ∧ _temperature (self (called w rq)) = _temperature (self w)
            ∧ _intensity (self (called w rq)) = _intensity (self w)
            ∧ _hour_of_day (self (called w rq)) = _hour_of_day (self w)).
  { intros rq. pose proof (cached_called w rq) as Hc. unfold cached in Hc.
    injection Hc as E1 E2 E3 E4 E5 E6. repeat split; assumption. }
  rewrite exec_world. unfold refreshed, cached.
  destruct o;
    rewrite ?get_device_info_eq, ?get_temperature_eq, ?get_button_action_eq,
            ?get_light_eq, ?enabled_eq, ?turn_on_eq, ?turn_off_eq, ?close_self;
    cbn zeta;
    repeat match goal with
           | |- context [match respond ?h ?r with _ => _ end] => destruct (respond h r)
           | |- context [match py_getitem ?b ?k with _ => _ end] => destruct (py_getitem b k)
           end;
    cbn [fst snd self with_self printed _device_details _catch_all _button_action
         _temperature _intensity _hour_of_day set_device_details set_temperature
         set_button_action set_intensity set_hour_of_day];
    try reflexivity;
    try (match goal with
         | |- context [called w ?rq] =>
             destruct (Hcalled rq) as (E1 & E2 & E3 & E4 & E5 & E6);
             rewrite ?E1, ?E2, ?E3, ?E4, ?E5, ?E6
         end; reflexivity).
  pose proof (λ f, get_info_keeps_field f w) as Hf.
  pose proof (Hf FDeviceDetails) as H1. pose proof (Hf FButtonAction) as H2.
  pose proof (Hf FTemperature) as H3. pose proof (Hf FIntensity) as H4.
  pose proof (Hf FHourOfDay) as H5. cbn [read] in H1, H2, H3, H4, H5.
  rewrite H1, H2, H3, H4, H5, get_info_catch_all. reflexivity.
Qed.

Lemma replies_history_free (h h' rqs : list Request) :
  history_free → replies h rqs = replies h' rqs.
Proof.
  intros Hfree. revert h h'. induction rqs as [|rq rqs IH]; intros h h'; [reflexivity|].
  cbn [replies]. rewrite (Hfree h h' rq). destruct (respond h' rq); [reflexivity|].
  f_equal. apply IH.
Qed.

Lemma refreshed_history_free (o : op) (w w' : World)
    (c : pyval * gmap string pyval * pyval * pyval * pyval * pyval) :
  history_free → session_of w' = session_of w → uri (self w') = uri (self w) →
  refreshed o w' c = refreshed o w c.
Proof.
  intros Hfree Hs Hu.
  assert (Hrq : ∀ m e d, request_of w' m e d = request_of w m e d).
  { intros m e d. unfold request_of. rewrite Hs, Hu. reflexivity. }
  assert (Hinfo : info_replies w' = info_replies w).
  { unfold info_replies, info_requests, requests_for.
    rewrite (replies_history_free (wire w') (wire w) _ Hfree).
    f_equal. apply map_ext. intros e. apply Hrq. }
  unfold refreshed. rewrite !Hrq, Hinfo.
  destruct c as [[[[[dd ca] ba] t] i] h].
  destruct o; try reflexivity; rewrite (Hfree (wire w') (wire w)); reflexivity.
Qed.

Lemma refreshed_twice (o : op) (w : World)
    (c : pyval * gmap string pyval * pyval * pyval * pyval * pyval) :
  refreshed o w (refreshed o w c) = refreshed o w c.
Proof.
  destruct c as [[[[[dd ca] ba] t] i] h]. unfold refreshed.
  destruct o; try reflexivity;
    repeat match goal with
           | |- context [match respond ?h ?r with _ => _ end] => destruct (respond h r)
           | |- context [match py_getitem ?b ?k with _ => _ end] => destruct (py_getitem b k)
           end;
    try reflexivity.
  rewrite store_twice. reflexivity.
Qed.

Lemma refreshed_commute (o1 o2 : op) (w : World)
    (c : pyval * gmap string pyval * pyval * pyval * pyval * pyval) :
  refreshed o1 w (refreshed o2 w c) = refreshed o2 w (refreshed o1 w c).
Proof.
  destruct c as [[[[[dd ca] ba] t] i] h]. unfold refreshed.
  destruct o1, o2; try reflexivity;
    repeat match goal with
           | |- context [match respond ?h ?r with _ => _ end] => destruct (respond h r)
           | |- context [match py_getitem ?b ?k with _ => _ end] => destruct (py_getitem b k)
           end;
    reflexivity.
Qed.

Lemma run_cached (ops : list op) (w : World) :
  history_free →
  cached (self (run ops w)) = foldl (λ c o, refreshed o w c) (cached (self w)) ops.
Proof.
  intros Hfree.
  assert (Hgen : ∀ w', session_of w' = session_of w → uri (self w') = uri (self w) →
            cached (self (run ops w')) =
            foldl (λ c o, refreshed o w c) (cached (self w')) ops).
  { induction ops as [|o ops IH]; intros w' Hs Hu; [reflexivity|].
    cbn [run foldl]. rewrite IH.
    - rewrite exec_cached, (refreshed_history_free o w w' _ Hfree Hs Hu). reflexivity.
    - rewrite exec_keeps_session_of. exact Hs.
    - rewrite exec_keeps_uri. exact Hu. }
  apply Hgen; reflexivity.
Qed.

(** X11. With a device whose answers depend on the request only, a call
    made twice in a row leaves the cache as the call made once, also for
    [get_info] and also when the call fails part of the way. *)
Theorem refresh_twice_is_once (o : op) (w : World) :
  history_free →
  cached (self (run [o; o] w)) = cached (self (run [o] w)).
Proof.
  intros Hfree. rewrite !run_cached by exact Hfree. cbn [foldl].
  apply refreshed_twice.
Qed.

(** X12. With a device whose answers depend on the request only, on a
    client whose session is open, the cache after a sequence of calls that
    does not close the client does not depend on the order of the calls:
    every call writes fields that no other call writes. *)
Theorem refresh_order_irrelevant (ops1 ops2 : list op) (w : World) :
  history_free → session_open w → existsb is_close ops1 = false →
  ops1 ≡ₚ ops2 →
  existsb is_close ops2 = false
  ∧ cached (self (run ops1 w)) = cached (self (run ops2 w)).
Proof.
  intros Hfree _ Hopen Hperm. split.
  - apply not_true_iff_false. intros Hc. apply existsb_exists in Hc as (o & Ho & Hclose).
    apply (Permutation_in _ (Permutation_sym Hperm)) in Ho.
    assert (Hc1 : existsb is_close ops1 = true) by (apply existsb_exists; eauto).
    congruence.
  - rewrite !run_cached by exact Hfree.
    generalize (cached (self w)). clear Hopen.
    induction Hperm as [|o l1 l2 _ IH|o1 o2 l|l1 l2 l3 _ IH1 _ IH2]; intros c.
    + reflexivity.
    + cbn [foldl]. apply IH.
    + cbn [foldl]. rewrite refreshed_commute. reflexivity.
    + rewrite IH1. apply IH2.
Qed.

(** X13. With a device whose answers depend on the request only and
    distinct endpoint paths, [get_device_info] and [get_button_action]
    after a [get_info] that returned cache the very bodies that
    [everything] holds under the device-info and button-action keys. *)
Theorem single_calls_agree_with_get_info (w : World) :
  history_free → NoDup info_endpoints → fst (get_info w) = Ok tt →
  _catch_all (self (run [GetInfo; GetDeviceInfo; GetButtonAction] w)) !! DEVICE_INFO
    = Some (device_details (self (run [GetInfo; GetDeviceInfo; GetButtonAction] w)))
  ∧ _catch_all (self (run [GetInfo; GetDeviceInfo; GetButtonAction] w)) !! BUTTON_ACTIONS
    = Some (button_action (self (run [GetInfo; GetDeviceInfo; GetButtonAction] w))).
Proof.
  intros Hfree Hnd Hok.
  pose proof (run_cached [GetInfo; GetDeviceInfo; GetButtonAction] w Hfree) as Hc.
  set (d := self (run [GetInfo; GetDeviceInfo; GetButtonAction] w)) in *.
  clearbody d. cbn [foldl] in Hc. unfold cached at 2 in Hc. unfold refreshed in Hc.
  rewrite get_info_result in Hok. case_bool_decide as Hlen; [|discriminate Hok].
  assert (Hdev : ∃ b, info_replies w !! 1 = Some b) by
    (apply lookup_lt_is_Some; lia).
  assert (Hbut : ∃ b, info_replies w !! 6 = Some b) by
    (apply lookup_lt_is_Some; lia).
  destruct Hdev as [bd Hbd]. destruct Hbut as [bb Hbb].
  pose proof (replies_lookup (wire w) (info_requests w) 1
                (request_of w GET DEVICE_INFO PNone) bd eq_refl Hbd) as Hrd.
  pose proof (replies_lookup (wire w) (info_requests w) 6
                (request_of w GET BUTTON_ACTIONS PNone) bb eq_refl Hbb) as Hrb.
  rewrite (Hfree _ (wire w)) in Hrd. rewrite (Hfree _ (wire w)) in Hrb.
  rewrite Hrd, Hrb in Hc.
  unfold cached in Hc. injection Hc as Hdd Hca Hba _ _ _.
  unfold device_details, button_action. rewrite Hdd, Hca, Hba. split.
  - rewrite <- Hbd.
    apply (store_lookup_in info_endpoints (info_replies w) _ 1 DEVICE_INFO Hnd eq_refl).
    lia.
  - rewrite <- Hbb.
    apply (store_lookup_in info_endpoints (info_replies w) _ 6 BUTTON_ACTIONS Hnd eq_refl).
    lia.
Qed.

End Composition.

Section Paths.






































End Paths.



(** * The further properties on the sample configuration *)

Lemma exec_raises_only_witness :
  let w := @world_init sample_constants "1.2.3.4" None [] in
  fst (@exec sample_constants stateless_light_device GetLight w) = Raise (KeyError "state")
  ∧ fst (@exec sample_constants stateless_light_device TurnOn w) = Ok PNone.
Proof.
  intros w.
  destruct (@exec_raises_only sample_constants stateless_light_device GetLight w)
    as (Hraise & _ & _).
  destruct (@exec_raises_only sample_constants stateless_light_device TurnOn w)
    as (_ & Hok & _).
  assert (Hget : fst (@exec sample_constants stateless_light_device GetLight w)
                 = Raise (KeyError "state")) by (vm_compute; reflexivity).
  destruct (Hraise _ Hget) as (_ & _ & _).
  split; [exact Hget|]. apply Hok.
  - apply (bool_decide_unpack _). vm_compute. exact I.
  - vm_compute. reflexivity.
Defined.

Lemma get_light_without_state_witness :
  let w := @world_init sample_constants "1.2.3.4" None [] in
  let w' := snd (@get_light sample_constants stateless_light_device w) in
  fst (@get_light sample_constants stateless_light_device w) = Raise (KeyError "state")
  ∧ intensity (self w') = Ok (PFloat 7.2)
  ∧ _hour_of_day (self w') = PNone.
Proof.
  intros w w'.
  destruct (@get_light_without_state sample_constants stateless_light_device w
              {[ "intensity" := PFloat 7.25 ]} (PFloat 7.25))
    as (Hraise & Hint & Hhour & _).
  - vm_compute. reflexivity.
  - vm_compute. reflexivity.
  - vm_compute. reflexivity.
  - split; [exact Hraise|]. split; [|exact Hhour].
    unfold intensity, w'. rewrite Hint. reflexivity.
Defined.

Lemma missing_field_keeps_cache_witness :
  let w := @world_init sample_constants "1.2.3.4" None [] in
  fst (@exec sample_constants echo_device GetTemperature w)
    = Raise (KeyError "temperature")
  ∧ fst (@exec sample_constants stateless_light_device Enabled w) = Raise TypeError
  ∧ cached (self (snd (@exec sample_constants echo_device GetTemperature w)))
    = cached (self w).
Proof.
  intros w.
  destruct (@missing_field_keeps_cache sample_constants echo_device
              GetTemperature "temperature" w
              (@request_of w GET (@TEMPERATURE sample_constants) PNone)
              (PDict {[ "path" := PStr "/api/v1/temp" ]}))
    as (Hraise & Hcache & _).
  - apply (bool_decide_unpack _). vm_compute. exact I.
  - reflexivity.
  - vm_compute. reflexivity.
  - intros d [= <-]. vm_compute. reflexivity.
  - destruct (@missing_field_keeps_cache sample_constants stateless_light_device
                Enabled "on" w
                (@request_of w GET (@FRONT_LED_GET sample_constants) PNone)
                (PStr "ok"))
      as (Hraise2 & _ & _).
    + apply (bool_decide_unpack _). vm_compute. exact I.
    + reflexivity.
    + vm_compute. reflexivity.
    + intros d Hd. discriminate Hd.
    + split; [exact Hraise|]. split; [exact Hraise2|exact Hcache].
Defined.

Lemma day_night_exclusive_witness :
  let w := snd (@get_light sample_constants sensor_device
                  (@world_init sample_constants "1.2.3.4" None [])) in
  night (self w) = true ∧ day (self w) = false.
Proof.
  intros w.
  destruct (day_night_exclusive (self w)) as (_ & Hnight & Hboth & _).
  assert (Hn : night (self w) = true) by (apply Hnight; vm_compute; reflexivity).
  split; [exact Hn|]. rewrite Hn, andb_true_r in Hboth. exact Hboth.
Defined.

Lemma only_get_light_prints_witness :
  let w := @world_init sample_constants "1.2.3.4" None [] in
  stdout (snd (@get_light sample_constants stateless_light_device w))
    = [PDict {[ "intensity" := PFloat 7.25 ]}]
  ∧ stdout (snd (@exec sample_constants stateless_light_device GetTemperature w)) = [].
Proof.
  intros w.
  destruct (@only_get_light_prints sample_constants stateless_light_device
              GetTemperature w) as (Hother & _ & Hlight).
  split.
  - apply (Hlight (PDict {[ "intensity" := PFloat 7.25 ]})). vm_compute. reflexivity.
  - apply Hother. discriminate.
Defined.

Lemma run_requests_witness :
  let w := @world_init sample_constants "1.2.3.4" None [] in
  let rq := @request_of w POST "led/set" (PDict {[ "action" := PStr "on" ]}) in
  rq ∈ wire (@run sample_constants dead_device [GetInfo; TurnOn] w)
  ∧ rq_session rq = 0.
Proof.
  intros w rq.
  assert (Hin : rq ∈ wire (@run sample_constants dead_device [GetInfo; TurnOn] w)).
  { right. left. }
  destruct (@run_requests sample_constants dead_device [GetInfo; TurnOn] w)
    as [_ Hall].
  destruct (Hall rq Hin) as [Hold|_]; [inversion Hold|].
  split; [exact Hin|reflexivity].
Defined.

Lemma one_session_per_client_witness :
  let w := @world_init sample_constants "1.2.3.4" None [mkSession false 0] in
  _session (self (@run sample_constants dead_device
                    [GetTemperature; Close; GetLight; TurnOff] w)) = Some 1
  ∧ length (sessions (@run sample_constants dead_device
                        [GetTemperature; Close; GetLight; TurnOff] w)) = 2.
Proof.
  intros w.
  destruct (@one_session_per_client sample_constants dead_device
              [GetTemperature; Close; GetLight; TurnOff] w)
    as (_ & Hlen & Hset).
  split; [apply Hset; reflexivity|exact Hlen].
Defined.

Lemma echo_device_history_free : @history_free echo_device.
Proof. intros h h' rq. reflexivity. Defined.

Lemma refresh_twice_is_once_witness :
  let w := @world_init sample_constants "1.2.3.4" None [] in
  cached (self (@run sample_constants echo_device [GetInfo; GetInfo] w))
  = cached (self (@run sample_constants echo_device [GetInfo] w)).
Proof.
  intros w.
  exact (@refresh_twice_is_once sample_constants echo_device GetInfo w
           echo_device_history_free).
Defined.

Lemma refresh_order_irrelevant_witness :
  let w := @world_init sample_constants "1.2.3.4" None [] in
  cached (self (@run sample_constants echo_device [GetInfo; GetDeviceInfo] w))
  = cached (self (@run sample_constants echo_device [GetDeviceInfo; GetInfo] w)).
Proof.
  intros w.
  apply (@refresh_order_irrelevant sample_constants echo_device).
  - exact echo_device_history_free.
  - intros sid s Hsid. discriminate Hsid.
  - reflexivity.
  - apply perm_swap.
Defined.

Lemma single_calls_agree_with_get_info_witness :
  let w := @world_init sample_constants "1.2.3.4" None [] in
  let d := self (@run sample_constants echo_device
                   [GetInfo; GetDeviceInfo; GetButtonAction] w) in
  _catch_all d !! "device" = Some (device_details d)
  ∧ _catch_all d !! "action" = Some (button_action d).
Proof.
  intros w d.
  apply (@single_calls_agree_with_get_info sample_constants echo_device w).
  - exact echo_device_history_free.
  - exact sample_endpoints_distinct.
  - vm_compute. reflexivity.
Defined.

(** * The cached fields over the life of a client *)

Section CachedFields.
Context `{Constants} `{Device}.

(** A call that is not the refresher of a field, or that raised, leaves
    the field as it was; the intensity is the one field that a raising
    call, [get_light], may have written. *)
Lemma exec_keeps_field_unless_returned (f : field) (o : op) (w : World) :
  f ≠ FIntensity →
  o ≠ refresher f ∨ is_ok (fst (exec o w)) = false →
  read f (self (snd (exec o w))) = read f (self w).
Proof.
  intros Hf [Hne|Hraised]; [apply exec_keeps_field; left; exact Hne|].
  destruct (decide (o = refresher f)) as [->|Hne];
    [|apply exec_keeps_field; left; exact Hne].
  rewrite exec_result in Hraised. rewrite exec_world.
  destruct f; try contradiction; cbn [refresher] in *;
    rewrite ?get_device_info_eq, ?get_temperature_eq, ?get_button_action_eq,
            ?get_light_eq;
    cbn zeta;
    repeat match goal with
           | |- context [match respond ?h ?r with _ => _ end] => destruct (respond h r)
           | |- context [match py_getitem ?b ?k with _ => _ end] => destruct (py_getitem b k)
           end;
    try discriminate Hraised;
    cbn [fst snd self with_self printed read _device_details _button_action
         _temperature _hour_of_day set_intensity];
    match goal with
    | |- ?p (self (called w ?rq)) = _ =>
        first [exact (read_called FDeviceDetails w rq)
              | exact (read_called FButtonAction w rq)
              | exact (read_called FTemperature w rq)
              | exact (read_called FHourOfDay w rq)]
    end.
Qed.

Lemma exec_keeps_intensity (o : op) (w : World) :
  o ≠ GetLight ∨ holds_intensity w = false →
  _intensity (self (snd (exec o w))) = _intensity (self w).
Proof.
  intros [Hne|Hnone]; [apply (exec_keeps_field FIntensity); left; exact Hne|].
  destruct (decide (o = GetLight)) as [->|Hne];
    [|apply (exec_keeps_field FIntensity); left; exact Hne].
  unfold holds_intensity in Hnone. rewrite exec_world, get_light_eq. cbn zeta.
  destruct (respond _ _) as [|body];
    [exact (read_called FIntensity w _)|].
  destruct (py_getitem body "intensity"); [discriminate Hnone|].
  exact (read_called FIntensity w _).
Qed.

Lemma run_keeps_field_unless_returned (f : field) (ops : list op) (w : World) :
  f ≠ FIntensity → returned (refresher f) ops w = false →
  read f (self (run ops w)) = read f (self w).
Proof.
  intros Hf. revert w. induction ops as [|o ops IH]; intros w Hno; [reflexivity|].
  cbn [returned] in Hno. apply orb_false_iff in Hno as [Hhere Hlater].
  cbn [run]. rewrite (IH _ Hlater). apply exec_keeps_field_unless_returned; [exact Hf|].
  apply andb_false_iff in Hhere as [Hne|Hraised]; [left|right; exact Hraised].
  apply bool_decide_eq_false in Hne. exact Hne.
Qed.

Lemma run_keeps_intensity (ops : list op) (w : World) :
  intensity_received ops w = false →
  _intensity (self (run ops w)) = _intensity (self w).
Proof.
  revert w. induction ops as [|o ops IH]; intros w Hno; [reflexivity|].
  cbn [intensity_received] in Hno. apply orb_false_iff in Hno as [Hhere Hlater].
  cbn [run]. rewrite (IH _ Hlater). apply exec_keeps_intensity.
  apply andb_false_iff in Hhere as [Hne|Hnone]; [left|right; exact Hnone].
  apply bool_decide_eq_false in Hne. exact Hne.
Qed.

(** C10 as the code has it.  On a client on which no [get_temperature]
    has returned, reading [temperature] raises [TypeError], because
    [round] is applied to [None].  Reading [intensity] raises as long as no
    [get_light] has received a body that holds [intensity]: a [get_light]
    that raised for a missing [state] has stored the intensity already. *)
Theorem accessors_raise_until_written (host : string) (session : option nat)
    (ss : list ClientSession) (ops : list op) :
  temperature (__init__ host session) = Raise TypeError
  ∧ intensity (__init__ host session) = Raise TypeError
  ∧ (returned GetTemperature ops (world_init host session ss) = false →
       temperature (self (run ops (world_init host session ss))) = Raise TypeError)
  ∧ (intensity_received ops (world_init host session ss) = false →
       intensity (self (run ops (world_init host session ss))) = Raise TypeError).
Proof.
  repeat split; try reflexivity; intros Hno; unfold temperature, intensity.
  - pose proof (run_keeps_field_unless_returned FTemperature ops _
                  ltac:(discriminate) Hno) as Hkeep.
    cbn [read] in Hkeep. rewrite Hkeep. reflexivity.
  - rewrite (run_keeps_intensity ops _ Hno). reflexivity.
Qed.

(** C6 as the code has it.  At construction the five single-valued fields
    are [None] and [everything] is the empty mapping.  The device details,
    the button action, the temperature and the day/night token change only
    in a call of their own refresher that returns, so they stay [None]
    until it has returned once and keep the value of the last call that
    returned; the intensity changes only in a
    [get_light] that receives a body holding [intensity], also when that
    call then raises for a missing [state]; [everything] changes only in a
    [get_info] whose first request is answered.  A refresher that returns
    has overwritten its field with the value of its own response, and a
    [get_info] stores, key by key, the bodies it received. *)
Theorem cached_fields_lifecycle (host : string) (session : option nat)
    (ss : list ClientSession) (ops : list op) (w : World) :
  (∀ f, read f (__init__ host session) = PNone)
  ∧ everything (__init__ host session) = PDict ∅
  ∧ (∀ f, f ≠ FIntensity →
          returned (refresher f) ops (world_init host session ss) = false →
          read f (self (run ops (world_init host session ss))) = PNone)
  ∧ (intensity_received ops (world_init host session ss) = false →
       _intensity (self (run ops (world_init host session ss))) = PNone)
  ∧ (answered GetInfo ops (world_init host session ss) = false →
       everything (self (run ops (world_init host session ss))) = PDict ∅)
  ∧ (∀ f, f ≠ FIntensity → returned (refresher f) ops w = false →
          read f (self (run ops w)) = read f (self w))
  ∧ (intensity_received ops w = false →
       _intensity (self (run ops w)) = _intensity (self w))
  ∧ (∀ f o, f ≠ FIntensity →
            o ≠ refresher f ∨ is_ok (fst (exec o w)) = false →
            read f (self (snd (exec o w))) = read f (self w))
  ∧ (∀ o, o ≠ GetLight ∨ holds_intensity w = false →
          _intensity (self (snd (exec o w))) = _intensity (self w))
  ∧ (∀ o, o ≠ GetInfo ∨ first_answered o w = false →
          everything (self (snd (exec o w))) = everything (self w))
  ∧ (fst (get_device_info w) = Ok tt →
       respond (wire w) (request_of w GET DEVICE_INFO PNone)
       = Replied (device_details (self (snd (get_device_info w)))))
  ∧ (fst (get_button_action w) = Ok tt →
       respond (wire w) (request_of w GET BUTTON_ACTIONS PNone)
       = Replied (button_action (self (snd (get_button_action w)))))
  ∧ (fst (get_temperature w) = Ok tt →
       ∃ body, respond (wire w) (request_of w GET TEMPERATURE PNone) = Replied body
               ∧ py_getitem body "temperature"
                 = Ok (_temperature (self (snd (get_temperature w)))))
  ∧ (fst (get_light w) = Ok tt →
       ∃ body, respond (wire w) (request_of w GET LIGHT PNone) = Replied body
               ∧ py_getitem body "intensity"
                 = Ok (_intensity (self (snd (get_light w))))
               ∧ py_getitem body "state"
                 = Ok (_hour_of_day (self (snd (get_light w)))))
  ∧ (∀ body i, respond (wire w) (request_of w GET LIGHT PNone) = Replied body →
               py_getitem body "intensity" = Ok i →
               _intensity (self (snd (get_light w))) = i)
  ∧ everything (self (snd (get_info w))) =
      PDict (store (zip info_endpoints (info_replies w)) (_catch_all (self w)))
  ∧ (NoDup info_endpoints → fst (get_info w) = Ok tt →
       ∀ i e, info_endpoints !! i = Some e →
              is_Some (info_replies w !! i)
              ∧ _catch_all (self (snd (get_info w))) !! e = info_replies w !! i).
Proof.
  split; [intros []; reflexivity|].
  split; [reflexivity|].
  split; [intros f Hf Hno; rewrite (run_keeps_field_unless_returned f ops _ Hf Hno);
          destruct f; reflexivity|].
  split; [intros Hno; rewrite (run_keeps_intensity ops _ Hno); reflexivity|].
  split; [intros Hno; unfold everything; rewrite (run_keeps_catch_all ops _ Hno);
          reflexivity|].
  split; [intros f; apply run_keeps_field_unless_returned|].
  split; [apply run_keeps_intensity|].
  split; [intros f o; apply exec_keeps_field_unless_returned|].
  split; [intros o; apply exec_keeps_intensity|].
  split; [intros o Hno; unfold everything; rewrite (exec_keeps_catch_all o w Hno);
          reflexivity|].
  split; [rewrite get_device_info_eq; cbn zeta;
          destruct (respond _ _); [discriminate|reflexivity]|].
  split; [rewrite get_button_action_eq; cbn zeta;
          destruct (respond _ _); [discriminate|reflexivity]|].
  split.
  { rewrite get_temperature_eq. cbn zeta.
    destruct (respond _ _) as [|body]; [discriminate|].
    destruct (py_getitem body "temperature") as [t|e] eqn:Ht; [|discriminate].
    intros _. exists body. split; [reflexivity|exact Ht]. }
  split.
  { rewrite get_light_eq. cbn zeta.
    destruct (respond _ _) as [|body]; [discriminate|].
    destruct (py_getitem body "intensity") as [i|e] eqn:Hi; [|discriminate].
    destruct (py_getitem body "state") as [s|e] eqn:Hs; [|discriminate].
    intros _. exists body. split; [reflexivity|]. split; [exact Hi|exact Hs]. }
  split; [intros body i Hr Hi; rewrite get_light_eq; cbn zeta; rewrite Hr, Hi;
          destruct (py_getitem body "state"); reflexivity|].
  split; [unfold everything; rewrite get_info_catch_all; reflexivity|].
  intros Hnd Hok i e He.
  rewrite get_info_result in Hok. case_bool_decide as Hlen; [|discriminate Hok].
  assert (Hi : i < length (info_replies w)).
  { rewrite Hlen. apply lookup_lt_Some in He. rewrite info_endpoints_length in He.
    exact He. }
  split; [apply lookup_lt_is_Some; exact Hi|].
  rewrite get_info_catch_all. apply store_lookup_in; assumption.
Qed.

End CachedFields.

(** * The URLs of the requests *)

Section EndpointUrls.
Context `{Constants} `{Device}.

(** The URLs a method requests. *)
Lemma urls_exec (o : op) (w : World) :
  urls (snd (exec o w)) =
  urls w ++ match o with
            | GetInfo =>
                map (λ e, URL_join (uri (self w)) (URL_parse e))
                    (take (S (length (info_replies w))) info_endpoints)
            | _ => match first_request o w with
                   | Some rq => [rq_uri rq]
                   | None => []
                   end
            end.
Proof.
  unfold urls. rewrite exec_wire, map_app. f_equal.
  destruct o; try reflexivity; try (cbn [first_request]; reflexivity).
  unfold info_requests, requests_for. rewrite firstn_map, map_map. reflexivity.
Qed.

(** C7. Each method requests the base URI joined with its own endpoint
    path by reference resolution, and [get_info] the base URI joined with
    the seven paths in turn; the base URI is [http://host] joined with the
    API prefix and no call changes it.  With the prefix [/api/v1/] and the
    path [light], [get_light] requests [http://host/api/v1/light].  The
    join is not concatenation: a path that starts with a slash replaces the
    base path, and a reference with an authority or a scheme replaces
    these too. *)
Theorem endpoint_urls_are_joined (w : World) :
  urls (snd (get_device_info w))
    = urls w ++ [URL_join (uri (self w)) (URL_parse DEVICE_INFO)]
  ∧ urls (snd (get_info w))
    = urls w ++ map (λ e, URL_join (uri (self w)) (URL_parse e))
                    (take (S (length (info_replies w)))
                          [PUCK; DEVICE_INFO; SETTINGS; PIR_CONFIGURATION;
                           THERMOSTAT_CONFIGURATION; INPUT_CONFIGURATION;
                           BUTTON_ACTIONS])
  ∧ urls (snd (get_temperature w))
    = urls w ++ [URL_join (uri (self w)) (URL_parse TEMPERATURE)]
  ∧ urls (snd (get_button_action w))
    = urls w ++ [URL_join (uri (self w)) (URL_parse BUTTON_ACTIONS)]
  ∧ urls (snd (get_light w))
    = urls w ++ [URL_join (uri (self w)) (URL_parse LIGHT)]
  ∧ urls (snd (enabled w))
    = urls w ++ [URL_join (uri (self w)) (URL_parse FRONT_LED_GET)]
  ∧ urls (snd (turn_on w))
    = urls w ++ [URL_join (uri (self w)) (URL_parse FRONT_LED_SET)]
  ∧ urls (snd (turn_off w))
    = urls w ++ [URL_join (uri (self w)) (URL_parse FRONT_LED_SET)]
  ∧ urls (snd (close w)) = urls w
  ∧ (∀ ops, uri (self (run ops w)) = uri (self w))
  ∧ (∀ host session ss, plain_host host = true →
       uri (self (world_init host session ss))
       = URL_join (URL_build "http" host) (URL_parse API))
  ∧ (∀ host session ss, plain_host host = true →
       API = "/api/v1/" → LIGHT = "light" →
       map URL_str (urls (snd (get_light (world_init host session ss))))
       = ["http://" +:+ host +:+ "/api/v1/light"])
  ∧ (∀ base rel, scheme rel = None → authority rel = None →
       strip_prefix "/" (path rel) ≠ None →
       URL_join base rel =
       mkURL (scheme base) (authority base) (remove_dot_segments (path rel))
             (query rel) (fragment rel))
  ∧ URL_str (URL_join (URL_parse "http://1.2.3.4/api/v1/") (URL_parse "light"))
    = "http://1.2.3.4/api/v1/light"
  ∧ URL_str (URL_join (URL_parse "http://1.2.3.4/api/v1/") (URL_parse "/light"))
    = "http://1.2.3.4/light"
  ∧ URL_str (URL_join (URL_parse "http://1.2.3.4/api/v1/") (URL_parse "../light"))
    = "http://1.2.3.4/api/light"
  ∧ URL_str (URL_join (URL_parse "http://1.2.3.4/api/v1/") (URL_parse "//5.6.7.8/light"))
    = "http://5.6.7.8/light"
  ∧ URL_str (URL_join (URL_parse "http://1.2.3.4/api/v1/")
                      (URL_parse "https://5.6.7.8/light"))
    = "https://5.6.7.8/light".
Proof.
  pose proof (λ o, urls_exec o w) as Hurls.
  pose proof (Hurls GetDeviceInfo) as H1. pose proof (Hurls GetInfo) as H2.
  pose proof (Hurls GetTemperature) as H3. pose proof (Hurls GetButtonAction) as H4.
  pose proof (Hurls GetLight) as H5. pose proof (Hurls Enabled) as H6.
  pose proof (Hurls TurnOn) as H7. pose proof (Hurls TurnOff) as H8.
  pose proof (Hurls Close) as H9.
  rewrite exec_world in H1, H2, H3, H4, H5, H6, H7, H8, H9.
  rewrite app_nil_r in H9.
  split; [exact H1|]. split; [exact H2|]. split; [exact H3|]. split; [exact H4|].
  split; [exact H5|]. split; [exact H6|]. split; [exact H7|]. split; [exact H8|].
  split; [exact H9|].
  split; [intros ops; apply run_keeps_uri|].
  split; [reflexivity|].
  split.
  { intros host session ss _ Hapi Hlight.
    pose proof (urls_exec GetLight (world_init host session ss)) as Hl.
    rewrite exec_world in Hl. rewrite Hl.
    cbn [first_request request_of rq_uri world_init self uri __init__ urls wire
         map app].
    rewrite Hapi, Hlight. vm_compute. reflexivity. }
  split.
  { intros base rel Hs Ha Hp. unfold URL_join. rewrite Hs, Ha.
    destruct (path rel) as [|c p]; [exfalso; apply Hp; reflexivity|].
    cbn [strip_prefix] in Hp.
    destruct (Ascii.eqb "/" c) eqn:Hc; [|exfalso; apply Hp; reflexivity].
    apply Ascii.eqb_eq in Hc. subst c. reflexivity. }
  repeat split; vm_compute; reflexivity.
Qed.

End EndpointUrls.

(** * The cached fields and the URLs on the sample configuration *)

Lemma accessors_raise_until_written_witness :
  let w := @world_init sample_constants "1.2.3.4" None [] in
  fst (@exec sample_constants echo_device GetTemperature w)
    = Raise (KeyError "temperature")
  ∧ temperature (self (@run sample_constants echo_device
                         [GetTemperature; GetLight; TurnOn; Close] w))
    = Raise TypeError
  ∧ intensity (self (@run sample_constants echo_device
                       [GetTemperature; GetLight; TurnOn; Close] w))
    = Raise TypeError.
Proof.
  intros w.
  destruct (@accessors_raise_until_written sample_constants echo_device
              "1.2.3.4" None [] [GetTemperature; GetLight; TurnOn; Close])
    as (_ & _ & Htemp & Hint).
  split; [vm_compute; reflexivity|].
  split; [apply Htemp|apply Hint]; vm_compute; reflexivity.
Defined.

Lemma cached_fields_lifecycle_witness :
  let w := @world_init sample_constants "1.2.3.4" None [] in
  let w' := @run sample_constants echo_device
              [GetTemperature; GetLight; GetDeviceInfo] w in
  fst (@exec sample_constants echo_device GetTemperature w)
    = Raise (KeyError "temperature")
  ∧ read FTemperature (self w') = PNone
  ∧ read FHourOfDay (self w') = PNone
  ∧ @respond echo_device (wire w) (@request_of w GET "device" PNone)
    = Replied (device_details (self (snd (@get_device_info sample_constants
                                            echo_device w)))).
Proof.
  intros w w'.
  destruct (@cached_fields_lifecycle sample_constants echo_device "1.2.3.4" None []
              [GetTemperature; GetLight; GetDeviceInfo] w)
    as (_ & _ & Hunset & _ & _ & _ & _ & _ & _ & _ & Hdev & _).
  split; [vm_compute; reflexivity|].
  split; [apply (Hunset FTemperature); [discriminate|vm_compute; reflexivity]|].
  split; [apply (Hunset FHourOfDay); [discriminate|vm_compute; reflexivity]|].
  apply Hdev. vm_compute. reflexivity.
Defined.

Lemma endpoint_urls_are_joined_witness :
  map URL_str
      (urls (snd (@get_light sample_constants sensor_device
                    (@world_init sample_constants "1.2.3.4" None []))))
  = ["http://1.2.3.4/api/v1/light"].
Proof.
  destruct (@endpoint_urls_are_joined sample_constants sensor_device
              (@world_init sample_constants "1.2.3.4" None []))
    as (_ & _ & _ & _ & _ & _ & _ & _ & _ & _ & _ & Hlight & _).
  exact (Hlight "1.2.3.4" None [] eq_refl eq_refl eq_refl).
Defined.

(** ** Where the cached fields depart from the claims *)

(** C6 as stated fails: on a new client a [get_info] that raises has
    already put a key into [everything], and a [get_light] that raises for
    a missing [state] has already stored the intensity. *)
Lemma partial_get_info_populates_everything :
  let w := @world_init sample_constants "1.2.3.4" None [] in
  let w' := snd (@get_info sample_constants puck_only_device w) in
  let w'' := snd (@get_light sample_constants stateless_light_device w) in
  fst (@get_info sample_constants puck_only_device w) = Raise DingzError
  ∧ everything (self w) = PDict ∅
  ∧ _catch_all (self w') !! "puck" = Some (PDict {[ "version" := PStr "1.0" ]})
  ∧ everything (self w') ≠ PDict ∅
  ∧ everything (self w') ≠ PNone
  ∧ fst (@get_light sample_constants stateless_light_device w)
    = Raise (KeyError "state")
  ∧ _intensity (self w) = PNone
  ∧ _intensity (self w'') = PFloat 7.25.
Proof.
  intros w w' w''.
  split; [vm_compute; reflexivity|].
  split; [reflexivity|].
  split; [vm_compute; reflexivity|].
  split.
  { intros Heq.
    apply (f_equal (λ v, match v with
                         | PDict d => match d !! "puck" with Some _ => true | None => false end
                         | _ => false
                         end)) in Heq.
    vm_compute in Heq. discriminate Heq. }
  split; [discriminate|].
  split; [vm_compute; reflexivity|].
  split; [reflexivity|vm_compute; reflexivity].
Qed.

(** C10 as stated fails: after a [get_light] that raised, so that no
    [get_light] has succeeded, [intensity] returns a number. *)
Lemma intensity_readable_after_failed_get_light :
  let w := @world_init sample_constants "1.2.3.4" None [] in
  let w' := snd (@exec sample_constants stateless_light_device GetLight w) in
  fst (@exec sample_constants stateless_light_device GetLight w)
    = Raise (KeyError "state")
  ∧ @returned sample_constants stateless_light_device GetLight [GetLight] w = false
  ∧ intensity (self w') = Ok (PFloat 7.2)
  ∧ intensity (self w') ≠ Raise TypeError.
Proof.
  intros w w'.
  split; [vm_compute; reflexivity|].
  split; [vm_compute; reflexivity|].
  assert (Hread : intensity (self w') = Ok (PFloat 7.2)) by (vm_compute; reflexivity).
  split; [exact Hread|]. rewrite Hread. discriminate.
Qed.
